(** * AvoidRickshaw: the tracking core of [src/data.c]

    A shallow embedding of the data module of the AvoidRickshaw pedometer:
    the process-wide [s_info] record, the two sensor callbacks
    ([_pos_updated_cb], [_accel_cb]), the fare and calorie calculators and
    the session controller ([data_tracking_start], [data_tracking_stop]).  The
    two integer labels of [src/view.c] are modelled at the end of the
    definitions.

    C [double]s are Rocq's primitive binary64 floats, so every arithmetic
    operation below rounds exactly as the compiled program does.  The
    platform (location manager, sensor framework, clock, preference store,
    SQLite helper) is not part of the repository: its answers are inputs
    of the model. *)

From Stdlib Require Import ZArith Bool List Lia Floats.
From Stdlib Require String Ascii.
Import ListNotations.

Set Warnings "-inexact-float".

Local Open Scope float_scope.

(** ** C arithmetic *)

Module C.

Definition INT_MAX : Z := 2147483647.
Definition INT_MIN : Z := -2147483648.

Definition in_int_range (z : Z) : bool :=
  ((INT_MIN <=? z) && (z <=? INT_MAX))%Z.

(** [DBL_MAX] of <float.h>: the largest finite binary64 number. *)
Definition DBL_MAX : float := 0x1.fffffffffffffp+1023.

(** Value of a finite double, rounded toward zero to an integer. *)
Definition truncate (s : bool) (m : positive) (e : Z) : Z :=
  let a := Z.shiftl (Zpos m) e in
  if s then (- a)%Z else a.

(** Conversion of a [double] to [int] (C11 6.3.1.4): the fractional part
    is discarded; the behaviour is undefined ([None]) when the integral
    part is not representable, which includes NaN and the infinities. *)
Definition double_to_int (f : float) : option Z :=
  match Prim2SF f with
  | S754_zero _ => Some 0%Z
  | S754_finite s m e =>
      let z := truncate s m e in
      if in_int_range z then Some z else None
  | S754_infinity _ | S754_nan => None
  end.

(** Conversion of a [double] to [float] (binary32, round to nearest
    even); the result is kept as the double of the same value. *)
Definition double_to_float (d : float) : float :=
  SF2Prim match Prim2SF d with
          | S754_finite s m e => binary_round 24 128 s m e
          | x => x
          end.

(** [n++] on an [int]: signed overflow is undefined. *)
Definition int_succ (n : Z) : option Z :=
  if (n <? INT_MAX)%Z then Some (n + 1)%Z else None.

End C.

(** ** Constants of [data.c] *)

Definition TRESHOLD : float := 0.2.
Definition MAX_ACCEL_INIT_VALUE : float := 1000.
Definition DOUBLE_COMPARIZON_THRESHOLD : float := 0.0001.
Definition LAT_UNINITIATED : float := C.DBL_MAX.
Definition LONG_UNINITIATED : float := C.DBL_MAX.

(** ** The module state [s_info]

    Handles and function pointers are modelled by whether they are
    non-NULL. *)

Record data_info := {
  location_manager : bool;
  total_distance : float;
  prev_latitude : float;
  prev_longitude : float;
  position_changed_callback : bool;
  steps_count_changed_callback : bool;
  fare_count_changed_callback : bool;
  calorie_count_changed_callback : bool;
  acceleration_listener : bool;
  prev_acc_av : float;
  init_acc_av : float;
  steps_count : Z;
  start_time : float;
  calories : float
}.

(** The static initialiser of [s_info]. *)
Definition s_info_init : data_info := {|
  location_manager := false;
  total_distance := 0;
  prev_latitude := LAT_UNINITIATED;
  prev_longitude := LONG_UNINITIATED;
  position_changed_callback := false;
  steps_count_changed_callback := false;
  fare_count_changed_callback := false;
  calorie_count_changed_callback := false;
  acceleration_listener := false;
  prev_acc_av := MAX_ACCEL_INIT_VALUE;
  init_acc_av := MAX_ACCEL_INIT_VALUE;
  steps_count := 0;
  start_time := 0;
  calories := 0
|}.

(** What the user interface observes: one constructor per callback type. *)
Inductive notification :=
| DistanceChanged (total : float)
| StepsChanged (steps : Z)
| FareChanged (fare : Z)
| CaloriesChanged (cal : float).

(** Modelled from the spec: the [QueryData] row of Sqlitedbhelper.h, which
    is not among the sources.  It holds the four figures [_data_save_db]
    fills in (the specification's SessionRecord: distance and calories
    as [float], steps and fare as [int]); the row id and the date are
    set by the database. *)
Record QueryData := {
  qd_distance : float;
  qd_steps : Z;
  qd_calories : float;
  qd_fare : Z
}.

(** The program state together with what it has emitted so far:
    notifications delivered to the observers and rows appended to the
    database, oldest first. *)
Record world := {
  s_info : data_info;
  notified : list notification;
  database : list QueryData
}.

Definition world_init : world :=
  {| s_info := s_info_init; notified := []; database := [] |}.

(** ** A small state-and-failure monad

    [None] stands for undefined behaviour of the C program (a call through
    a NULL function pointer, an unrepresentable conversion, a signed
    overflow). *)

Definition M (A : Type) : Type := world -> option (A * world).

Definition ret {A} (a : A) : M A := fun w => Some (a, w).

Definition bind {A B} (c : M A) (k : A -> M B) : M B :=
  fun w => match c w with
           | Some (a, w') => k a w'
           | None => None
           end.

Definition undefined {A} : M A := fun _ => None.

Declare Scope m_scope.
Delimit Scope m_scope with m.
Notation "x <- c ;; k" := (bind c (fun x => k))
  (at level 100, c at next level, right associativity) : m_scope.
Notation "c ;; k" := (bind c (fun _ => k))
  (at level 100, right associativity) : m_scope.

Definition get : M data_info := fun w => Some (s_info w, w).

Definition modify (f : data_info -> data_info) : M unit :=
  fun w => Some (tt, {| s_info := f (s_info w);
                        notified := notified w;
                        database := database w |}).

Definition emit (n : notification) : M unit :=
  fun w => Some (tt, {| s_info := s_info w;
                        notified := notified w ++ [n];
                        database := database w |}).

(** A call through a function pointer of [s_info]. *)
Definition call (attached : bool) (n : notification) : M unit :=
  if attached then emit n else undefined.

Definition lift_option {A} (o : option A) : M A :=
  match o with Some a => ret a | None => undefined end.

(** Modelled from the spec: [insertIntoDb] of Sqlitedbhelper, which is
    not among the sources.  The persistence sink is append-only
    ([append_session (distance, steps, calories, fare)]): the row is
    appended to the database. *)
Definition insertIntoDb (distance : float) (steps : Z) (cal : float) (fare : Z) : M unit :=
  fun w => Some (tt, {| s_info := s_info w;
                        notified := notified w;
                        database := database w ++
                          [{| qd_distance := distance; qd_steps := steps;
                              qd_calories := cal; qd_fare := fare |}] |}).

(** Running a computation for its final world. *)
Definition exec {A} (c : M A) (w : world) : option world :=
  option_map snd (c w).

(** ** Field updates of [s_info] *)

Definition set_location_manager (v : bool) (s : data_info) : data_info :=
  {| location_manager := v; total_distance := total_distance s;
     prev_latitude := prev_latitude s; prev_longitude := prev_longitude s;
     position_changed_callback := position_changed_callback s;
     steps_count_changed_callback := steps_count_changed_callback s;
     fare_count_changed_callback := fare_count_changed_callback s;
     calorie_count_changed_callback := calorie_count_changed_callback s;
     acceleration_listener := acceleration_listener s;
     prev_acc_av := prev_acc_av s; init_acc_av := init_acc_av s;
     steps_count := steps_count s; start_time := start_time s;
     calories := calories s |}.

Definition set_total_distance (v : float) (s : data_info) : data_info :=
  {| location_manager := location_manager s; total_distance := v;
     prev_latitude := prev_latitude s; prev_longitude := prev_longitude s;
     position_changed_callback := position_changed_callback s;
     steps_count_changed_callback := steps_count_changed_callback s;
     fare_count_changed_callback := fare_count_changed_callback s;
     calorie_count_changed_callback := calorie_count_changed_callback s;
     acceleration_listener := acceleration_listener s;
     prev_acc_av := prev_acc_av s; init_acc_av := init_acc_av s;
     steps_count := steps_count s; start_time := start_time s;
     calories := calories s |}.

Definition set_prev_position (lat lon : float) (s : data_info) : data_info :=
  {| location_manager := location_manager s; total_distance := total_distance s;
     prev_latitude := lat; prev_longitude := lon;
     position_changed_callback := position_changed_callback s;
     steps_count_changed_callback := steps_count_changed_callback s;
     fare_count_changed_callback := fare_count_changed_callback s;
     calorie_count_changed_callback := calorie_count_changed_callback s;
     acceleration_listener := acceleration_listener s;
     prev_acc_av := prev_acc_av s; init_acc_av := init_acc_av s;
     steps_count := steps_count s; start_time := start_time s;
     calories := calories s |}.

Definition set_callbacks (pos steps fare cal : bool) (s : data_info) : data_info :=
  {| location_manager := location_manager s; total_distance := total_distance s;
     prev_latitude := prev_latitude s; prev_longitude := prev_longitude s;
     position_changed_callback := pos;
     steps_count_changed_callback := steps;
     fare_count_changed_callback := fare;
     calorie_count_changed_callback := cal;
     acceleration_listener := acceleration_listener s;
     prev_acc_av := prev_acc_av s; init_acc_av := init_acc_av s;
     steps_count := steps_count s; start_time := start_time s;
     calories := calories s |}.

Definition set_acceleration_listener (v : bool) (s : data_info) : data_info :=
  {| location_manager := location_manager s; total_distance := total_distance s;
     prev_latitude := prev_latitude s; prev_longitude := prev_longitude s;
     position_changed_callback := position_changed_callback s;
     steps_count_changed_callback := steps_count_changed_callback s;
     fare_count_changed_callback := fare_count_changed_callback s;
     calorie_count_changed_callback := calorie_count_changed_callback s;
     acceleration_listener := v;
     prev_acc_av := prev_acc_av s; init_acc_av := init_acc_av s;
     steps_count := steps_count s; start_time := start_time s;
     calories := calories s |}.

Definition set_prev_acc_av (v : float) (s : data_info) : data_info :=
  {| location_manager := location_manager s; total_distance := total_distance s;
     prev_latitude := prev_latitude s; prev_longitude := prev_longitude s;
     position_changed_callback := position_changed_callback s;
     steps_count_changed_callback := steps_count_changed_callback s;
     fare_count_changed_callback := fare_count_changed_callback s;
     calorie_count_changed_callback := calorie_count_changed_callback s;
     acceleration_listener := acceleration_listener s;
     prev_acc_av := v; init_acc_av := init_acc_av s;
     steps_count := steps_count s; start_time := start_time s;
     calories := calories s |}.

Definition set_init_acc_av (v : float) (s : data_info) : data_info :=
  {| location_manager := location_manager s; total_distance := total_distance s;
     prev_latitude := prev_latitude s; prev_longitude := prev_longitude s;
     position_changed_callback := position_changed_callback s;
     steps_count_changed_callback := steps_count_changed_callback s;
     fare_count_changed_callback := fare_count_changed_callback s;
     calorie_count_changed_callback := calorie_count_changed_callback s;
     acceleration_listener := acceleration_listener s;
     prev_acc_av := prev_acc_av s; init_acc_av := v;
     steps_count := steps_count s; start_time := start_time s;
     calories := calories s |}.

Definition set_steps_count (v : Z) (s : data_info) : data_info :=
  {| location_manager := location_manager s; total_distance := total_distance s;
     prev_latitude := prev_latitude s; prev_longitude := prev_longitude s;
     position_changed_callback := position_changed_callback s;
     steps_count_changed_callback := steps_count_changed_callback s;
     fare_count_changed_callback := fare_count_changed_callback s;
     calorie_count_changed_callback := calorie_count_changed_callback s;
     acceleration_listener := acceleration_listener s;
     prev_acc_av := prev_acc_av s; init_acc_av := init_acc_av s;
     steps_count := v; start_time := start_time s;
     calories := calories s |}.

Definition set_start_time (v : float) (s : data_info) : data_info :=
  {| location_manager := location_manager s; total_distance := total_distance s;
     prev_latitude := prev_latitude s; prev_longitude := prev_longitude s;
     position_changed_callback := position_changed_callback s;
     steps_count_changed_callback := steps_count_changed_callback s;
     fare_count_changed_callback := fare_count_changed_callback s;
     calorie_count_changed_callback := calorie_count_changed_callback s;
     acceleration_listener := acceleration_listener s;
     prev_acc_av := prev_acc_av s; init_acc_av := init_acc_av s;
     steps_count := steps_count s; start_time := v;
     calories := calories s |}.

Definition set_calories (v : float) (s : data_info) : data_info :=
  {| location_manager := location_manager s; total_distance := total_distance s;
     prev_latitude := prev_latitude s; prev_longitude := prev_longitude s;
     position_changed_callback := position_changed_callback s;
     steps_count_changed_callback := steps_count_changed_callback s;
     fare_count_changed_callback := fare_count_changed_callback s;
     calorie_count_changed_callback := calorie_count_changed_callback s;
     acceleration_listener := acceleration_listener s;
     prev_acc_av := prev_acc_av s; init_acc_av := init_acc_av s;
     steps_count := steps_count s; start_time := start_time s;
     calories := v |}.

(** ** The functions of [data.c] *)

Section Data.

Local Open Scope m_scope.

(** [location_manager_get_distance lat1 lon1 lat2 lon2] of the platform:
    the great-circle distance in metres between two coordinates, or an
    error code ([None]). *)
Variable location_manager_get_distance :
  float -> float -> float -> float -> option float.

Definition data_set_position_changed_callback (cb : bool) : M unit :=
  modify (fun s => set_callbacks cb (steps_count_changed_callback s)
                     (fare_count_changed_callback s)
                     (calorie_count_changed_callback s) s).

Definition data_set_steps_count_changed_callback (cb : bool) : M unit :=
  modify (fun s => set_callbacks (position_changed_callback s) cb
                     (fare_count_changed_callback s)
                     (calorie_count_changed_callback s) s).

Definition data_set_fare_changed_callback (cb : bool) : M unit :=
  modify (fun s => set_callbacks (position_changed_callback s)
                     (steps_count_changed_callback s) cb
                     (calorie_count_changed_callback s) s).

Definition data_set_calorie_changed_callback (cb : bool) : M unit :=
  modify (fun s => set_callbacks (position_changed_callback s)
                     (steps_count_changed_callback s)
                     (fare_count_changed_callback s) cb s).

(** The double that [count_fare] converts to [int] when the distance is
    above one kilometre: [(int) baseFare + ((d / 1000) - baseDistance) *
    farePerUnitDistance].  The cast binds to [baseFare] alone, so the sum
    is a [double]; the conversion happens at the assignment to [fare]. *)
Definition fare_amount (d : float) : float := 10 + (d / 1000 - 1) * 5.

(** The value [count_fare] assigns to [fare]; [fare = 0.0] stores 0. *)
Definition fare_of_distance (d : float) : option Z :=
  if 1000 <? d then C.double_to_int (fare_amount d) else Some 0%Z.

Definition count_fare : M Z :=
  s <- get ;;
  fare <- lift_option (fare_of_distance (total_distance s)) ;;
  call (fare_count_changed_callback s) (FareChanged fare) ;;
  ret fare.

(** [preference] is the stored "weight" if it exists, [now] the value of
    [ecore_time_get ()]. *)
Definition calorieBurner (preference : option float) (now : float) : M unit :=
  s <- get ;;
  let tempDistance := total_distance s / 1000 in
  let weight := match preference with Some w => w | None => 70.0 end in
  let elapsedTime := (now - start_time s) / 3600 in
  let cal := 0.0215 * tempDistance * tempDistance * tempDistance
             - 0.1765 * tempDistance * tempDistance + 0.8710 * tempDistance
             + 1.4577 * weight * elapsedTime in
  modify (set_calories cal) ;;
  call (calorie_count_changed_callback s) (CaloriesChanged cal).

(** The test guarding the first branch of [_pos_updated_cb]. *)
Definition position_uninitiated (s : data_info) : bool :=
  (abs (prev_latitude s - LAT_UNINITIATED) <? DOUBLE_COMPARIZON_THRESHOLD)
  && (abs (prev_longitude s - LONG_UNINITIATED) <? DOUBLE_COMPARIZON_THRESHOLD).

Definition _pos_updated_cb (latitude longitude : float)
    (preference : option float) (now : float) : M unit :=
  s <- get ;;
  if position_uninitiated s then
    modify (set_prev_position latitude longitude)
  else
    match location_manager_get_distance latitude longitude
            (prev_latitude s) (prev_longitude s) with
    | None => ret tt
    | Some distance =>
        modify (set_total_distance (total_distance s + distance)) ;;
        modify (set_prev_position latitude longitude) ;;
        s' <- get ;;
        (if position_changed_callback s'
         then emit (DistanceChanged (total_distance s'))
         else ret tt) ;;
        count_fare ;;
        calorieBurner preference now
    end.

(** [location_manager_destroy] leaves the handle in [s_info] as it is. *)
Definition _data_distance_tracker_destroy : M unit := ret tt.

(** [create_ok] and [set_cb_ok]: whether [location_manager_create] and
    [location_manager_set_position_updated_cb] succeed. *)
Definition _data_distance_tracker_init (create_ok set_cb_ok : bool) : M bool :=
  if create_ok then
    modify (set_location_manager true) ;;
    (if set_cb_ok then ret true
     else (_data_distance_tracker_destroy ;; ret false))
  else ret false.

Definition _data_distance_tracker_start (create_ok set_cb_ok : bool) : M unit :=
  s <- get ;;
  if location_manager s then ret tt
  else (_data_distance_tracker_init create_ok set_cb_ok ;; ret tt).

Definition _data_save_db : M unit :=
  temp <- count_fare ;;
  s <- get ;;
  let distance := C.double_to_float (total_distance s) in
  let steps := steps_count s in
  let cal := C.double_to_float (calories s) in
  if (0 <? steps)%Z && (0 <? distance)
  then insertIntoDb distance steps cal temp
  else ret tt.

Definition _data_distance_tracker_stop : M unit :=
  s <- get ;;
  if location_manager s then
    _data_save_db ;;
    modify (set_total_distance 0) ;;
    modify (set_steps_count 0) ;;
    modify (set_calories 0)
  else ret tt.

(** The test guarding the first branch of [_accel_cb]. *)
Definition accel_uninitiated (init : float) : bool :=
  abs (init - MAX_ACCEL_INIT_VALUE) <? DOUBLE_COMPARIZON_THRESHOLD.

Definition current_acc_av (x y z : float) : float :=
  (abs x + abs y + abs z) / 3.

(** The drop test of [_accel_cb]. *)
Definition step_detected (s : data_info) (current : float) : bool :=
  (init_acc_av s <? prev_acc_av s) && (TRESHOLD <? init_acc_av s - current).

Definition _accel_cb (x y z : float) : M unit :=
  s <- get ;;
  let current := current_acc_av x y z in
  if accel_uninitiated (init_acc_av s) then
    modify (set_prev_acc_av current) ;;
    modify (set_init_acc_av current)
  else
    (if step_detected s current then
       n <- lift_option (C.int_succ (steps_count s)) ;;
       modify (set_steps_count n) ;;
       (if steps_count_changed_callback s
        then emit (StepsChanged n)
        else ret tt)
     else ret tt) ;;
    modify (set_prev_acc_av current).

(** The four platform calls of the listener set-up, in order:
    [sensor_is_supported], [sensor_get_default_sensor],
    [sensor_create_listener], [sensor_listener_set_event_cb]. *)
Definition _data_acceleration_sensor_init_handle
    (supported default_ok create_ok set_cb_ok : bool) : M bool :=
  if negb supported then ret false
  else if negb default_ok then ret false
  else if negb create_ok then ret false
  else
    modify (set_acceleration_listener true) ;;
    (if negb set_cb_ok
     then (modify (set_acceleration_listener false) ;; ret false)
     else ret true).

Definition _data_acceleration_sensor_release_handle : M unit :=
  s <- get ;;
  if acceleration_listener s
  then modify (set_acceleration_listener false)
  else ret tt.

(** [sensor_listener_start]: its result is only logged. *)
Definition _data_acceleration_sensor_start : M unit := ret tt.

(** [stop_ok]: whether [sensor_listener_stop] succeeds. *)
Definition _data_acceleration_sensor_stop (stop_ok : bool) : M unit :=
  s <- get ;;
  if acceleration_listener s then
    (if stop_ok then
       modify (set_prev_acc_av MAX_ACCEL_INIT_VALUE) ;;
       modify (set_init_acc_av MAX_ACCEL_INIT_VALUE)
     else ret tt)
  else ret tt.

Definition data_initialize (gps_enabled create_ok set_cb_ok : bool)
    (supported default_ok listener_ok listener_cb_ok : bool) : M bool :=
  (if gps_enabled
   then (_data_distance_tracker_init create_ok set_cb_ok ;; ret tt)
   else ret tt) ;;
  _data_acceleration_sensor_init_handle supported default_ok listener_ok listener_cb_ok.

Definition data_finalize : M unit :=
  _data_distance_tracker_destroy ;;
  _data_acceleration_sensor_release_handle.

Definition data_tracking_start (create_ok set_cb_ok : bool) (now : float) : M unit :=
  _data_distance_tracker_start create_ok set_cb_ok ;;
  _data_acceleration_sensor_start ;;
  modify (set_start_time now) ;;
  s <- get ;;
  if (steps_count s =? 0)%Z then
    call (steps_count_changed_callback s) (StepsChanged (steps_count s)) ;;
    call (position_changed_callback s) (DistanceChanged (total_distance s)) ;;
    call (fare_count_changed_callback s) (FareChanged 0)
  else ret tt.

Definition data_tracking_stop (stop_ok : bool) : M unit :=
  _data_distance_tracker_stop ;;
  _data_acceleration_sensor_stop stop_ok.

(** ** Runs of the module

    What the application and the platform do to the module, with the
    platform's answers.  The platform invokes a callback only through an
    existing handle. *)

Inductive event :=
| Initialize (gps_enabled create_ok set_cb_ok : bool)
             (supported default_ok listener_ok listener_cb_ok : bool)
| AttachCallbacks
| Start (create_ok set_cb_ok : bool) (now : float)
| Stop (stop_ok : bool)
| Position (latitude longitude : float) (preference : option float) (now : float)
| Acceleration (x y z : float).

Definition handle (e : event) : M unit :=
  match e with
  | Initialize g c sc su d l lc =>
      data_initialize g c sc su d l lc ;; ret tt
  | AttachCallbacks =>
      data_set_position_changed_callback true ;;
      data_set_steps_count_changed_callback true ;;
      data_set_fare_changed_callback true ;;
      data_set_calorie_changed_callback true
  | Start c sc now => data_tracking_start c sc now
  | Stop ok => data_tracking_stop ok
  | Position lat lon pref now =>
      s <- get ;;
      if location_manager s then _pos_updated_cb lat lon pref now else ret tt
  | Acceleration x y z =>
      s <- get ;;
      if acceleration_listener s then _accel_cb x y z else ret tt
  end.

Fixpoint run (es : list event) : M unit :=
  match es with
  | [] => ret tt
  | e :: es' => handle e ;; run es'
  end.

End Data.

(** ** Runs and reachable worlds *)

(** The application's start-up: both handles are acquired and the four
    observers of the view are attached. *)
Definition boot : list event :=
  [Initialize true true true true true true true; AttachCallbacks].

(** Start-up on a device whose location service is unavailable: no
    location manager is ever created, the accelerometer works. *)
Definition boot_without_location : list event :=
  [Initialize false false false true true true true; AttachCallbacks].

(** A world the module can be in: the outcome of some run from the static
    initial state. *)
Definition reachable
    (get_distance : float -> float -> float -> float -> option float)
    (w : world) : Prop :=
  exists es, exec (run get_distance es) world_init = Some w.

(** A position fix as [_pos_updated_cb] meets it: the coordinates the
    platform passes, and what the preference store and
    [ecore_time_get ()] answer while this fix is handled. *)
Record position_fix := {
  fix_latitude : float;
  fix_longitude : float;
  fix_preference : option float;
  fix_now : float
}.

Definition fix_position (f : position_fix) : float * float :=
  (fix_latitude f, fix_longitude f).

(** A stream of position fixes delivered to [_pos_updated_cb], each with
    its own stored weight and clock value. *)
Definition deliver_fixes
    (get_distance : float -> float -> float -> float -> option float)
    (fixes : list position_fix) : M unit :=
  fold_right
    (fun f k => bind (_pos_updated_cb get_distance
                        (fix_latitude f) (fix_longitude f)
                        (fix_preference f) (fix_now f))
                     (fun _ => k))
    (ret tt) fixes.

(** The platform's distances between each fix and the one before it. *)
Fixpoint consecutive_distances
    (get_distance : float -> float -> float -> float -> option float)
    (previous : float * float) (fixes : list (float * float))
    : list (option float) :=
  match fixes with
  | [] => []
  | f :: rest =>
      get_distance (fst f) (snd f) (fst previous) (snd previous)
      :: consecutive_distances get_distance f rest
  end.

(** Left-to-right sum of the distances, from [total]. *)
Definition add_distances (total : float) (ds : list (option float)) : float :=
  fold_left (fun acc o => match o with Some d => acc + d | None => acc end)
            ds total.

(** The totals reached along the way. *)
Fixpoint running_totals (total : float) (ds : list (option float))
    : list float :=
  match ds with
  | [] => []
  | o :: rest =>
      let t := match o with Some d => total + d | None => total end in
      t :: running_totals t rest
  end.

(** Whether a coordinate pair would be taken for the "not yet set" value
    of [prev_latitude]/[prev_longitude]. *)
Definition is_sentinel_position (f : float * float) : bool :=
  (abs (fst f - LAT_UNINITIATED) <? DOUBLE_COMPARIZON_THRESHOLD)
  && (abs (snd f - LONG_UNINITIATED) <? DOUBLE_COMPARIZON_THRESHOLD).

(** ** A stand-in platform for concrete runs

    The location service is outside the repository.  Concrete runs use a
    distance on a degree grid (111 km per degree along each axis) that,
    like the platform function, rejects coordinates outside the valid
    ranges. *)
Definition grid_distance (lat1 lon1 lat2 lon2 : float) : option float :=
  if (abs lat1 <=? 90) && (abs lon1 <=? 180)
     && (abs lat2 <=? 90) && (abs lon2 <=? 180)
  then Some (111000 * (abs (lat1 - lat2) + abs (lon1 - lon2)))
  else None.

(** ** The fare formula as the specification words it

    [10 + floor ((d / 1000 - 1) * 5)] above one kilometre, [0] up to it:
    once with every operation in binary64 and the floor taken before the
    base fare is added, once in exact rational arithmetic. *)

Definition floor_of_double (f : float) : option Z :=
  match Prim2SF f with
  | S754_zero _ => Some 0%Z
  | S754_finite s m e => Some (Z.shiftl (if s then Zneg m else Zpos m) e)
  | S754_infinity _ | S754_nan => None
  end.

Definition fare_spec_binary64 (d : float) : option Z :=
  if d <=? 1000 then Some 0%Z
  else option_map (Z.add 10) (floor_of_double ((d / 1000 - 1) * 5)).

(** Signed mantissa [n] and exponent [e] of a finite double: its value
    is [n * 2 ^ e]. *)
Definition double_value (f : float) : option (Z * Z) :=
  match Prim2SF f with
  | S754_zero _ => Some (0%Z, 0%Z)
  | S754_finite s m e => Some (if s then Zneg m else Zpos m, e)
  | S754_infinity _ | S754_nan => None
  end.

(** [floor ((n * 2^e / 1000 - 1) * 5) = floor ((n * 2^e - 1000) / 200)]. *)
Definition fare_units_exact (n e : Z) : Z :=
  if (0 <=? e)%Z
  then ((n * 2 ^ e - 1000) / 200)%Z
  else ((n - 1000 * 2 ^ (- e)) / (200 * 2 ^ (- e)))%Z.

Definition fare_spec_exact (d : float) : option Z :=
  match double_value d with
  | Some (n, e) =>
      if (0 <=? e)%Z && (n * 2 ^ e <=? 1000)%Z then Some 0%Z
      else if (e <? 0)%Z && (n <=? 1000 * 2 ^ (- e))%Z then Some 0%Z
      else Some (10 + fare_units_exact n e)%Z
  | None => None
  end.

(** The double of a small non-negative integer. *)
Definition metres (z : Z) : float := of_uint63 (Uint63.of_Z z).

(** Whether, at each of the [n] whole-metre distances from [d] on, the
    code's fare is [10 + floor ((d - 1000) / 200)] and the exact formula
    gives the same. *)
Fixpoint whole_metres_agree (n : nat) (d : Z) : bool :=
  match n with
  | O => true
  | S k =>
      match fare_of_distance (metres d), fare_spec_exact (metres d) with
      | Some f, Some g => (f =? 10 + (d - 1000) / 200)%Z && (g =? f)%Z
      | _, _ => false
      end && whole_metres_agree k (d + 1)
  end.

(** ** Sample worlds and inputs *)

(** The result of a run from the static initial state on the stand-in
    platform ([world_init] again if the run is undefined). *)
Definition world_after (es : list event) : world :=
  match exec (run grid_distance es) world_init with
  | Some w => w
  | None => world_init
  end.

(** A first session in progress: started, two fixes 0.01 degree of
    latitude apart received, no step taken. *)
Definition session_events : list event :=
  boot ++ [Start true true 0;
           Position 23.70 90.40 None 1;
           Position 23.71 90.40 None 2].

Definition world_tracking : world :=
  Eval vm_compute in world_after session_events.

(** A session just started, no fix received yet. *)
Definition started_events : list event := boot ++ [Start true true 0].

Definition world_started : world :=
  Eval vm_compute in world_after started_events.

(** The same session stopped and a second one started. *)
Definition restart_events : list event :=
  session_events ++ [Stop true; Start true true 10].

Definition world_restarted : world :=
  Eval vm_compute in world_after restart_events.

(** A session with a calibrated accelerometer: baseline average 9.8 / 3,
    then a rise to 4. *)
Definition walking_events : list event :=
  boot ++ [Start true true 0;
           Position 23.70 90.40 None 1;
           Position 23.71 90.40 None 2;
           Acceleration 0 0 9.8;
           Acceleration 0 0 12].

Definition world_walking : world :=
  Eval vm_compute in world_after walking_events.

(** The same session after the drop to 3 that registers a step. *)
Definition stepped_events : list event :=
  walking_events ++ [Acceleration 0 0 9.0].

Definition world_stepped : world :=
  Eval vm_compute in world_after stepped_events.

(** A session on a device without location service, one step taken. *)
Definition degraded_events : list event :=
  boot_without_location ++ [Start false false 0;
                            Acceleration 0 0 9.8;
                            Acceleration 0 0 12;
                            Acceleration 0 0 9.0].

Definition world_degraded : world :=
  Eval vm_compute in world_after degraded_events.

(** The double just below 1600. *)
Definition below_1600 : float := 0x1.8ffffffffffffp+10.

(** A platform that reports the same distance for every pair of
    coordinates; another stand-in for concrete runs. *)
Definition constant_distance (d : float)
    (lat1 lon1 lat2 lon2 : float) : option float := Some d.

Definition world_paced : world :=
  Eval vm_compute in
    match exec (run (constant_distance 12.5)
                  (boot ++ [Start true true 0;
                            Position 23.70 90.40 None 1;
                            Position 23.70 90.40 None 2]))
               world_init with
    | Some w => w
    | None => world_init
    end.

(** The world after one more fix on that platform. *)
Definition world_after_paced_fix (w : world) : world :=
  match exec (handle (constant_distance 12.5) (Position 23.71 90.40 None 3)) w with
  | Some w' => w'
  | None => w
  end.

(** The events the two sensors deliver during a session. *)
Definition is_sensor_event (e : event) : bool :=
  match e with
  | Position _ _ _ _ | Acceleration _ _ _ => true
  | _ => false
  end.

(** ** An invariant of the runs

    Without a location manager no fix is ever accumulated, and while the
    accelerometer baseline holds its "not yet set" value the previous
    average does not exceed it. *)
Definition tracker_invariant (w : world) : Prop :=
  (location_manager (s_info w) = false -> total_distance (s_info w) = 0)
  /\ (accel_uninitiated (init_acc_av (s_info w)) = true ->
      (init_acc_av (s_info w) <? prev_acc_av (s_info w)) = false).

(** ** Further runs

    Streams of accelerometer samples, and a test for position events. *)

Definition is_position_event (e : event) : bool :=
  match e with
  | Position _ _ _ _ => true
  | _ => false
  end.

(** A stream of samples [(x, y, z)] delivered to [_accel_cb]. *)
Definition deliver_samples (samples : list (float * float * float)) : M unit :=
  fold_right
    (fun s k => bind (_accel_cb (fst (fst s)) (snd (fst s)) (snd s))
                     (fun _ => k))
    (ret tt) samples.

(** A world with other stored calories. *)
Definition with_calories (c : float) (w : world) : world :=
  {| s_info := set_calories c (s_info w);
     notified := notified w;
     database := database w |}.

(** ** More sample worlds and tests *)

(** The world an event leads to on the stand-in platform ([w] again if
    the event is undefined there). *)
Definition world_after_event (e : event) (w : world) : world :=
  match exec (handle grid_distance e) w with
  | Some w' => w'
  | None => w
  end.

(** The session with one step, stopped: its row is stored. *)
Definition saved_events : list event := stepped_events ++ [Stop true].

Definition world_saved : world :=
  Eval vm_compute in world_after saved_events.

(** Both handles acquired and a first fix received, but no observer
    attached. *)
Definition unobserved_events : list event :=
  [Initialize true true true true true true true;
   Position 23.70 90.40 None 1].

Definition world_unobserved : world :=
  Eval vm_compute in world_after unobserved_events.

(** A started session whose accelerometer has just been calibrated. *)
Definition calibrated_events : list event :=
  boot ++ [Start true true 0; Acceleration 0 0 9.8].

Definition world_calibrated : world :=
  Eval vm_compute in world_after calibrated_events.

(** The average [_accel_cb] computes for a sample. *)
Definition sample_average (s : float * float * float) : float :=
  current_acc_av (fst (fst s)) (snd (fst s)) (snd s).

(** Whether a fare is nothing or the base fare and more. *)
Definition fare_plausible (fare : Z) : bool :=
  ((fare =? 0) || (10 <=? fare))%Z.

Definition notification_plausible (n : notification) : bool :=
  match n with
  | FareChanged fare => fare_plausible fare
  | _ => true
  end.

Definition is_steps_notification (n : notification) : bool :=
  match n with
  | StepsChanged _ => true
  | _ => false
  end.

(** Whether an event, if it is a position fix, carries a latitude of at
    most 90 degrees. *)
Definition has_valid_latitude (e : event) : bool :=
  match e with
  | Position latitude _ _ _ => latitude <=? 90
  | _ => true
  end.

(** ** The labels of [view.c] *)

Module View.

Import Ascii String.

Definition BUF_MAX : nat := 16.

(** The literal part of the format of the fare label. *)
Definition fare_format_prefix : string := "Tk. "%string.

(** The character of the decimal digit [n]. *)
Definition digit (n : Z) : Ascii.ascii :=
  Ascii.ascii_of_nat (48 + Z.to_nat n).

(** The decimal digits of [n >= 0], most significant first, put before
    [acc]; [fuel] bounds their number. *)
Fixpoint digits (fuel : nat) (n : Z) (acc : String.string) : String.string :=
  match fuel with
  | O => acc
  | S fuel' =>
      let acc' := String.String (digit (n mod 10)) acc in
      if (n <? 10)%Z then acc' else digits fuel' (n / 10) acc'
  end.

(** The conversion [%d] of an [int]: a minus sign for a negative number
    and at most ten digits. *)
Definition format_d (n : Z) : String.string :=
  if (n <? 0)%Z
  then String.String "-"%char (digits 10 (- n) String.EmptyString)
  else digits 10 n String.EmptyString.

(** [snprintf (buf, size, ...)]: the first [size - 1] characters of the
    formatted text are stored, then the terminating null. *)
Definition snprintf (size : nat) (text : String.string) : String.string :=
  String.substring 0 (size - 1) text.

(** The text handed to [elm_object_part_text_set] for the steps part. *)
Definition view_set_steps_count (count : Z) : String.string :=
  snprintf BUF_MAX (format_d count).

(** The text handed to [elm_object_part_text_set] for the fare part. *)
Definition view_set_fare (fare : Z) : String.string :=
  snprintf BUF_MAX (String.append fare_format_prefix (format_d fare)).

(** Reading a decimal numeral back. *)
Definition digit_value (c : Ascii.ascii) : Z :=
  (Z.of_nat (Ascii.nat_of_ascii c) - 48)%Z.

Fixpoint read_digits (s : String.string) (acc : Z) : Z :=
  match s with
  | String.EmptyString => acc
  | String.String c s' => read_digits s' (10 * acc + digit_value c)%Z
  end.

Definition read_d (s : String.string) : Z :=
  match s with
  | String.EmptyString => 0%Z
  | String.String c s' =>
      if Ascii.eqb c "-"%char then (- read_digits s' 0)%Z else read_digits s 0
  end.

End View.

(** * Properties *)

(** ** Order of binary64 numbers *)

Module FloatOrder.

Lemma SFcompare_antisym (x y : spec_float) (c : comparison) :
  SFcompare x y = Some c -> SFcompare y x = Some (CompOpp c).
Proof.
  destruct x as [sx|sx| |sx mx ex], y as [sy|sy| |sy my ey]; cbn;
    try discriminate;
    try (destruct sx; intros [= <-]; reflexivity);
    try (destruct sy; intros [= <-]; reflexivity);
    try (destruct sx, sy; intros [= <-]; reflexivity).
  intros [= <-]. f_equal.
  rewrite (Z.compare_antisym ex ey).
  replace (Pos.compare_cont Eq my mx)
    with (CompOpp (Pos.compare_cont Eq mx my))
    by apply (Pos.compare_cont_antisym mx my Eq).
  destruct sx, sy; cbn; try reflexivity;
    destruct (ex ?= ey)%Z; cbn; try reflexivity;
    destruct (Pos.compare_cont Eq mx my); reflexivity.
Qed.

(** [x <= y] excludes [y < x]. *)
Lemma leb_not_gtb (x y : float) : (x <=? y) = true -> (y <? x) = false.
Proof.
  rewrite leb_spec, ltb_spec. unfold SFleb, SFltb.
  destruct (SFcompare (Prim2SF x) (Prim2SF y)) as [c|] eqn:E; [|discriminate].
  rewrite (SFcompare_antisym _ _ _ E).
  destruct c; cbn; congruence.
Qed.

(** A double equal to zero is not above zero. *)
Lemma eqb_zero_not_pos (x : float) : (x =? 0) = true -> (0 <? x) = false.
Proof.
  rewrite eqb_spec, ltb_spec. unfold SFeqb, SFltb.
  destruct (SFcompare (Prim2SF x) (Prim2SF 0)) as [c|] eqn:E; [|discriminate].
  rewrite (SFcompare_antisym _ _ _ E).
  destruct c; cbn; congruence.
Qed.

(** No double is below itself. *)
Lemma ltb_irrefl (x : float) : (x <? x) = false.
Proof.
  rewrite ltb_spec. unfold SFltb.
  destruct (SFcompare (Prim2SF x) (Prim2SF x)) as [c|] eqn:E; [|reflexivity].
  pose proof (SFcompare_antisym _ _ _ E) as E'. rewrite E in E'.
  destruct c; cbn in E'; congruence.
Qed.

End FloatOrder.

(** ** Addition of non-negative binary64 numbers

    The specification of the primitive addition ([add_spec]) unfolded
    down to the integer mantissas: the rounded sum of two non-negative
    doubles is not below either term's truncation. *)

Module FloatAdd.

Local Open Scope Z_scope.

Lemma pow2_pos (n : Z) : 0 <= n -> 0 < 2 ^ n.
Proof. intros. apply Z.pow_pos_nonneg; lia. Qed.

(** [digits2_pos m] is the number of binary digits of [m]. *)
Lemma digits2_bounds (m : positive) :
  2 ^ (Zpos (digits2_pos m) - 1) <= Zpos m < 2 ^ Zpos (digits2_pos m).
Proof.
  induction m as [m IH|m IH|]; cbn [digits2_pos].
  - rewrite Pos2Z.inj_succ.
    replace (Z.succ (Zpos (digits2_pos m)) - 1) with (Z.succ (Zpos (digits2_pos m) - 1)) by lia.
    rewrite !Z.pow_succ_r by lia. lia.
  - rewrite Pos2Z.inj_succ.
    replace (Z.succ (Zpos (digits2_pos m)) - 1) with (Z.succ (Zpos (digits2_pos m) - 1)) by lia.
    rewrite !Z.pow_succ_r by lia. lia.
  - cbn. lia.
Qed.

(** More value, at least as many digits. *)
Lemma digits2_shift_le (a b : positive) (j : Z) :
  0 <= j -> Zpos a * 2 ^ j <= Zpos b ->
  Zpos (digits2_pos a) + j <= Zpos (digits2_pos b).
Proof.
  intros Hj Hle.
  pose proof (digits2_bounds a) as [Ha _].
  pose proof (digits2_bounds b) as [_ Hb].
  assert (H : 2 ^ (Zpos (digits2_pos a) - 1 + j) < 2 ^ Zpos (digits2_pos b)).
  { rewrite Z.pow_add_r by lia.
    pose proof (pow2_pos j Hj). nia. }
  apply Z.pow_lt_mono_r_iff in H; lia.
Qed.

Lemma shr_1_div2 (mrs : shr_record) :
  0 <= shr_m mrs -> shr_m (shr_1 mrs) = shr_m mrs / 2.
Proof.
  destruct mrs as [m r s]. cbn [shr_m]. intros Hm.
  rewrite <- Z.div2_div.
  destruct m as [|[p|p|]|p]; cbn; try reflexivity; lia.
Qed.

Lemma iter_shr_1 (n : positive) :
  forall mrs, 0 <= shr_m mrs ->
    shr_m (iter_pos shr_1 n mrs) = shr_m mrs / 2 ^ Zpos n.
Proof.
  induction n as [n IH|n IH|]; intros mrs Hm; cbn [iter_pos].
  - assert (H1 : 0 <= shr_m (shr_1 mrs)).
    { rewrite shr_1_div2 by exact Hm. apply Z.div_pos; lia. }
    assert (H2 : 0 <= shr_m (iter_pos shr_1 n (shr_1 mrs))).
    { rewrite IH by exact H1. apply Z.div_pos; [exact H1|apply pow2_pos; lia]. }
    rewrite IH by exact H2. rewrite IH by exact H1.
    rewrite shr_1_div2 by exact Hm.
    rewrite !Z.div_div by (try apply pow2_pos; lia).
    f_equal.
    replace (2 ^ Zpos n~1) with (2 ^ (1 + Zpos n + Zpos n)) by (f_equal; lia).
    rewrite !Z.pow_add_r by lia. change (2 ^ 1) with 2. lia.
  - assert (H2 : 0 <= shr_m (iter_pos shr_1 n mrs)).
    { rewrite IH by exact Hm. apply Z.div_pos; [exact Hm|apply pow2_pos; lia]. }
    rewrite IH by exact H2. rewrite IH by exact Hm.
    rewrite !Z.div_div by (try apply pow2_pos; lia).
    f_equal.
    replace (2 ^ Zpos n~0) with (2 ^ (Zpos n + Zpos n)) by (f_equal; lia).
    rewrite Z.pow_add_r by lia. reflexivity.
  - rewrite shr_1_div2 by exact Hm. reflexivity.
Qed.

Lemma fexp_64 (e : Z) : fexp prec emax e = Z.max (e - 53) (-1074).
Proof. reflexivity. Qed.

Lemma shr_record_of_loc_m (m : Z) (l : location) :
  shr_m (shr_record_of_loc m l) = m.
Proof. destruct l as [|[]]; reflexivity. Qed.

(** The first component of [shr_fexp] is the mantissa shifted right by
    the number of excess digits, the second the exponent raised by it. *)
Lemma shr_fexp_pos (m : positive) (e : Z) (l : location) :
  let k := Z.max 0 (fexp prec emax (Zpos (digits2_pos m) + e) - e) in
  shr_m (fst (shr_fexp prec emax (Zpos m) e l)) = Zpos m / 2 ^ k
  /\ snd (shr_fexp prec emax (Zpos m) e l) = e + k.
Proof.
  intros k. subst k. unfold shr_fexp, shr. cbn [Zdigits2].
  destruct (fexp prec emax (Zpos (digits2_pos m) + e) - e) as [|p|p] eqn:Hk;
    cbn [fst snd].
  - rewrite shr_record_of_loc_m. cbn. rewrite Z.div_1_r. split; [reflexivity|lia].
  - rewrite iter_shr_1 by (rewrite shr_record_of_loc_m; lia).
    rewrite shr_record_of_loc_m.
    replace (Z.max 0 (Zpos p)) with (Zpos p) by lia. split; reflexivity.
  - rewrite shr_record_of_loc_m.
    replace (Z.max 0 (Zneg p)) with 0 by lia. cbn. rewrite Z.div_1_r.
    split; [reflexivity|lia].
Qed.

Lemma round_nearest_even_bounds (m : Z) (l : location) :
  m <= round_nearest_even m l <= m + 1.
Proof.
  destruct l as [|[]]; cbn; try destruct (Z.even m); lia.
Qed.

(** Rounding a positive mantissa gives infinity or a finite positive
    number that is not below the truncated input. *)
Lemma binary_round_aux_pos (m : positive) (e : Z) (l : location) :
  let k := Z.max 0 (fexp prec emax (Zpos (digits2_pos m) + e) - e) in
  -1074 <= e ->
  1 <= Zpos m / 2 ^ k ->
  binary_round_aux prec emax false (Zpos m) e l = S754_infinity false
  \/ exists m' e',
       binary_round_aux prec emax false (Zpos m) e l = S754_finite false m' e'
       /\ (e + k < e' \/ (e' = e + k /\ Zpos m / 2 ^ k <= Zpos m')).
Proof.
  intros k He Hm1. unfold binary_round_aux.
  pose proof (shr_fexp_pos m e l) as [Hm He1]. fold k in Hm, He1.
  destruct (shr_fexp prec emax (Zpos m) e l) as [mrs1 e1]. cbn [fst snd] in *.
  pose proof (round_nearest_even_bounds (shr_m mrs1) (loc_of_shr_record mrs1))
    as Hrne.
  destruct (round_nearest_even (shr_m mrs1) (loc_of_shr_record mrs1))
    as [|m2|m2] eqn:Hm2; [lia| |lia].
  pose proof (shr_fexp_pos m2 e1 loc_Exact) as [Hm3 He3].
  set (k2 := Z.max 0 (fexp prec emax (Zpos (digits2_pos m2) + e1) - e1)) in *.
  destruct (shr_fexp prec emax (Zpos m2) e1 loc_Exact) as [mrs2 e2].
  cbn [fst snd] in *.
  assert (Hk2 : k2 = 0 \/ (0 < k2 /\ k2 = Zpos (digits2_pos m2) - 53)).
  { subst k2. rewrite fexp_64. lia. }
  assert (Hpos : 1 <= shr_m mrs2 /\ (k2 = 0 -> shr_m mrs2 = Zpos m2)).
  { rewrite Hm3. destruct Hk2 as [->|[Hk2 Hk2']].
    - cbn. rewrite Z.div_1_r. lia.
    - split; [|lia].
      pose proof (digits2_bounds m2) as [Hd _].
      apply Z.div_le_lower_bound; [apply pow2_pos; lia|].
      rewrite Z.mul_1_r. eapply Z.le_trans; [|exact Hd].
      apply Z.pow_le_mono_r; lia. }
  destruct (shr_m mrs2) as [|m3|m3] eqn:Hm3'; [lia| |lia].
  destruct (e2 <=? emax - prec); [|left; reflexivity].
  right. exists m3, e2. split; [reflexivity|].
  destruct Hk2 as [Hk2|[Hk2 _]].
  - right. split; [lia|]. destruct Hpos as [_ Hpos]. rewrite (Hpos Hk2). lia.
  - left. lia.
Qed.

Lemma iter_xO_value (m d : positive) :
  Zpos (Pos.iter xO m d) = Zpos m * 2 ^ Zpos d.
Proof.
  induction d as [|d IH] using Pos.peano_ind.
  - cbn. lia.
  - rewrite Pos.iter_succ, Pos2Z.inj_xO, IH, Pos2Z.inj_succ, Z.pow_succ_r by lia.
    lia.
Qed.

(** Aligning a mantissa to a lower exponent keeps the value. *)
Lemma shl_align_value (m : positive) (e e' : Z) :
  e' <= e -> Zpos (fst (shl_align m e e')) = Zpos m * 2 ^ (e - e').
Proof.
  intros Hle. unfold shl_align.
  destruct (e' - e) as [|p|p] eqn:Hd; cbn [fst].
  - replace (e - e') with 0 by lia. cbn. lia.
  - lia.
  - rewrite iter_xO_value. f_equal. f_equal. lia.
Qed.

Lemma bounded_64 (m : positive) (e : Z) :
  bounded prec emax m e = true ->
  e = Z.max (Zpos (digits2_pos m) + e - 53) (-1074).
Proof.
  unfold bounded, canonical_mantissa. intros H.
  apply andb_prop in H as [H _]. apply Z.eqb_eq in H.
  rewrite fexp_64 in H. lia.
Qed.

(** The sum of two positive finite doubles is infinity or a positive
    finite double not below the first. *)
Lemma SFadd_pos (mx my : positive) (ex ey : Z) :
  bounded prec emax mx ex = true ->
  bounded prec emax my ey = true ->
  SFadd prec emax (S754_finite false mx ex) (S754_finite false my ey)
    = S754_infinity false
  \/ exists m e,
       SFadd prec emax (S754_finite false mx ex) (S754_finite false my ey)
         = S754_finite false m e
       /\ (ex < e \/ (e = ex /\ Zpos mx <= Zpos m)).
Proof.
  intros Hx Hy. apply bounded_64 in Hx, Hy.
  unfold SFadd. cbn [cond_Zopp]. set (ez := Z.min ex ey).
  pose proof (shl_align_value mx ex ez ltac:(lia)) as Hmx.
  pose proof (shl_align_value my ey ez ltac:(lia)) as Hmy.
  set (ax := fst (shl_align mx ex ez)) in *.
  set (ay := fst (shl_align my ey ez)) in *.
  change (Zpos ax + Zpos ay) with (Zpos (ax + ay)).
  cbn [binary_normalize]. unfold binary_round.
  assert (Hdig : Zpos (digits2_pos mx) + (ex - ez)
                 <= Zpos (digits2_pos (ax + ay))).
  { apply digits2_shift_le; [lia|]. rewrite Pos2Z.inj_add. lia. }
  set (s := (ax + ay)%positive) in *.
  assert (Hfe : ex <= fexp prec emax (Zpos (digits2_pos s) + ez)).
  { rewrite fexp_64. lia. }
  assert (Halign : shl_align s ez (fexp prec emax (Zpos (digits2_pos s) + ez))
                   = (s, ez)).
  { unfold shl_align.
    destruct (fexp prec emax (Zpos (digits2_pos s) + ez) - ez) eqn:Hd;
      try reflexivity. lia. }
  rewrite Halign.
  set (k := Z.max 0 (fexp prec emax (Zpos (digits2_pos s) + ez) - ez)).
  assert (Hk : ez + k = fexp prec emax (Zpos (digits2_pos s) + ez)) by lia.
  assert (Hs1 : 1 <= Zpos s / 2 ^ k).
  { pose proof (digits2_bounds s) as [Hd _].
    apply Z.div_le_lower_bound; [apply pow2_pos; lia|].
    rewrite Z.mul_1_r. eapply Z.le_trans; [|exact Hd].
    apply Z.pow_le_mono_r; [lia|]. subst k. rewrite fexp_64. lia. }
  destruct (binary_round_aux_pos s ez loc_Exact ltac:(lia) Hs1)
    as [Hinf|(m' & e' & Hfin & Hord)]; [left; exact Hinf|].
  right. exists m', e'. split; [exact Hfin|]. fold k in Hord.
  destruct Hord as [Hlt|[He' Hm']]; [left; lia|].
  destruct (Z.eq_dec (ez + k) ex) as [Heq|Hne]; [|left; lia].
  right. split; [lia|].
  eapply Z.le_trans; [|exact Hm'].
  apply Z.div_le_lower_bound; [apply pow2_pos; lia|].
  replace k with (ex - ez) by lia. unfold s. rewrite Pos2Z.inj_add. lia.
Qed.

(** A double that is at least zero is a zero, a positive finite number
    or plus infinity. *)
Lemma nonneg_cases (x : float) :
  (0 <=? x)%float = true ->
  (exists s, Prim2SF x = S754_zero s)
  \/ Prim2SF x = S754_infinity false
  \/ exists m e, Prim2SF x = S754_finite false m e
                 /\ bounded prec emax m e = true.
Proof.
  rewrite leb_spec. change (Prim2SF 0%float) with (S754_zero false).
  pose proof (Prim2SF_valid x) as Hv.
  destruct (Prim2SF x) as [s|s| |s m e]; cbn.
  - intros _. left. now exists s.
  - destruct s; [discriminate|]. intros _. right. left. reflexivity.
  - discriminate.
  - destruct s; [discriminate|]. intros _. right. right. now exists m, e.
Qed.

Lemma SFleb_finite_refl (m : positive) (e : Z) :
  SFleb (S754_finite false m e) (S754_finite false m e) = true.
Proof.
  unfold SFleb, SFcompare. rewrite Z.compare_refl.
  change (PosDef.Pos.compare_cont Eq m m) with (Pos.compare m m).
  rewrite Pos.compare_refl. reflexivity.
Qed.

Lemma SFleb_finite (m m' : positive) (e e' : Z) :
  e < e' \/ (e' = e /\ Zpos m <= Zpos m') ->
  SFleb (S754_finite false m e) (S754_finite false m' e') = true.
Proof.
  intros H. unfold SFleb, SFcompare.
  destruct H as [H|[-> H]].
  - apply Z.compare_lt_iff in H. rewrite H. reflexivity.
  - rewrite Z.compare_refl.
    change (PosDef.Pos.compare_cont Eq m m') with (Pos.compare m m').
    destruct (Pos.compare_spec m m'); try reflexivity. lia.
Qed.

(** Adding a non-negative double to a non-negative double gives a
    non-negative double that is not below the first. *)
Lemma add_nonneg_increasing (t d : float) :
  (0 <=? t)%float = true -> (0 <=? d)%float = true ->
  (t <=? t + d)%float = true /\ (0 <=? t + d)%float = true.
Proof.
  intros Ht Hd.
  apply nonneg_cases in Ht, Hd.
  rewrite !leb_spec, add_spec. change (Prim2SF 0%float) with (S754_zero false).
  unfold SF64add.
  destruct Ht as [[st Ht]|[Ht|(mt & et & Ht & Hbt)]]; rewrite Ht;
    destruct Hd as [[sd Hd]|[Hd|(md & ed & Hd & Hbd)]]; rewrite Hd.
  - destruct st, sd; split; reflexivity.
  - split; reflexivity.
  - cbn. split; reflexivity.
  - split; reflexivity.
  - split; reflexivity.
  - split; reflexivity.
  - cbn [SFadd]. split; [apply SFleb_finite_refl|reflexivity].
  - split; reflexivity.
  - destruct (SFadd_pos mt md et ed Hbt Hbd) as [->|(m & e & -> & Hord)].
    + split; reflexivity.
    + split; [apply SFleb_finite; exact Hord|reflexivity].
Qed.

(** A non-negative double is comparable with itself. *)
Lemma leb_refl_nonneg (t : float) :
  (0 <=? t)%float = true -> (t <=? t)%float = true.
Proof.
  intros Ht. apply nonneg_cases in Ht. rewrite leb_spec.
  destruct Ht as [[s Ht]|[Ht|(m & e & Ht & _)]]; rewrite Ht;
    try reflexivity.
  apply SFleb_finite_refl.
Qed.

End FloatAdd.

(** ** Stepping through the monad *)

(** The tests and conversions of the code stay folded while the monad
    is unfolded around them. *)
Arguments position_uninitiated : simpl never.
Arguments accel_uninitiated : simpl never.
Arguments step_detected : simpl never.
Arguments current_acc_av : simpl never.
Arguments fare_of_distance : simpl never.
Arguments C.double_to_float : simpl never.
Arguments C.double_to_int : simpl never.
Arguments C.int_succ : simpl never.

Lemma exec_bind {A B} (c : M A) (k : A -> M B) (w : world) :
  exec (bind c k) w =
  match c w with
  | Some (a, w') => exec (k a) w'
  | None => None
  end.
Proof. unfold exec, bind. destruct (c w) as [[a w']|]; reflexivity. Qed.

(** Unfolds the functions of the module down to the primitive steps. *)
Ltac unfold_data :=
  unfold handle, data_tracking_stop, data_tracking_start, data_initialize,
    data_finalize, _data_acceleration_sensor_stop,
    _data_acceleration_sensor_start, _data_acceleration_sensor_release_handle,
    _data_acceleration_sensor_init_handle, _accel_cb,
    _data_distance_tracker_stop, _data_save_db, _data_distance_tracker_start,
    _data_distance_tracker_init, _data_distance_tracker_destroy,
    _pos_updated_cb, calorieBurner, count_fare,
    data_set_position_changed_callback, data_set_steps_count_changed_callback,
    data_set_fare_changed_callback, data_set_calorie_changed_callback,
    insertIntoDb, call, lift_option, emit, modify, get, undefined, bind, ret
    in *.

(** A test or option that is itself free of tests. *)
Ltac atomic_test c :=
  lazymatch c with
  | context [if _ then _ else _] => fail
  | context [match _ with Some _ => _ | None => _ end] => fail
  | _ => idtac
  end.

(** Splits on an innermost test or option a goal or hypothesis is stuck
    on. *)
Ltac split_test :=
  match goal with
  | H : context [if ?c then _ else _] |- _ => atomic_test c; destruct c eqn:?
  | H : context [match ?o with Some _ => _ | None => _ end] |- _ =>
      atomic_test o; destruct o eqn:?
  | |- context [if ?c then _ else _] => atomic_test c; destruct c eqn:?
  | |- context [match ?o with Some _ => _ | None => _ end] =>
      atomic_test o; destruct o eqn:?
  end.

Ltac run_data :=
  unfold exec in *; unfold_data; cbn in *;
  repeat (split_test; cbn in *; try discriminate).

(** Closed statements about concrete runs: split the conjunctions and
    evaluate each equation. *)
Ltac split_conj := repeat match goal with |- _ /\ _ => split end.
Ltac evaluate := split_conj; vm_compute; reflexivity.

(** Closes a goal [exists w' x, c w = Some w' /\ ...] whose run is
    already evaluated, with [x] given. *)
Ltac exists_world x :=
  eexists; exists x; split_conj; cbn; rewrite <- ?app_assoc; reflexivity.

(** Evaluates the list a [Forall] ranges over, not its predicate. *)
Ltac eval_list :=
  match goal with
  | |- Forall ?P ?l => let l' := eval vm_compute in l in change (Forall P l')
  end.

(** ** The position callback *)

Section Position.

Variable get_distance : float -> float -> float -> float -> option float.

(** The sentinel test of the callback reads the stored pair only. *)
Lemma position_uninitiated_prev (s : data_info) :
  position_uninitiated s
  = is_sentinel_position (prev_latitude s, prev_longitude s).
Proof. reflexivity. Qed.

(** While the previous position is unset, a fix only seeds it. *)
Lemma calibration_fix_seeds
    (latitude longitude : float) (preference : option float) (now : float)
    (w : world) :
  position_uninitiated (s_info w) = true ->
  exec (_pos_updated_cb get_distance latitude longitude preference now) w
  = Some {| s_info := set_prev_position latitude longitude (s_info w);
            notified := notified w;
            database := database w |}.
Proof.
  intros Hcal. unfold exec, _pos_updated_cb, bind, get, modify. cbn.
  rewrite Hcal. reflexivity.
Qed.

(** Once a previous position is stored, a fix whose distance the
    platform computes is a measurement. *)
Lemma measured_fix
    (latitude longitude : float) (preference : option float) (now : float)
    (distance : float) (w w' : world) :
  position_uninitiated (s_info w) = false ->
  get_distance latitude longitude
    (prev_latitude (s_info w)) (prev_longitude (s_info w)) = Some distance ->
  exec (_pos_updated_cb get_distance latitude longitude preference now) w
    = Some w' ->
  total_distance (s_info w') = total_distance (s_info w) + distance
  /\ prev_latitude (s_info w') = latitude
  /\ prev_longitude (s_info w') = longitude
  /\ location_manager (s_info w') = location_manager (s_info w)
  /\ steps_count (s_info w') = steps_count (s_info w)
  /\ exists fare,
       fare_of_distance (total_distance (s_info w) + distance) = Some fare
       /\ notified w' =
          notified w
          ++ (if position_changed_callback (s_info w)
              then [DistanceChanged (total_distance (s_info w) + distance)]
              else [])
          ++ [FareChanged fare; CaloriesChanged (calories (s_info w'))].
Proof.
  intros Hcal Hd Hrun. unfold exec, _pos_updated_cb, bind, get in Hrun.
  cbn in Hrun. rewrite Hcal, Hd in Hrun.
  run_data; injection Hrun as <-; cbn;
    rewrite <- ?app_assoc; repeat split; eauto.
Qed.

(** [data_tracking_stop] and [data_tracking_start] never write the
    previous position. *)
Lemma stop_keeps_prev_position (stop_ok : bool) (w w' : world) :
  exec (data_tracking_stop stop_ok) w = Some w' ->
  prev_latitude (s_info w') = prev_latitude (s_info w)
  /\ prev_longitude (s_info w') = prev_longitude (s_info w).
Proof.
  intros Hrun. run_data; injection Hrun as <-; split; reflexivity.
Qed.

Lemma start_keeps_prev_position
    (create_ok set_cb_ok : bool) (now : float) (w w' : world) :
  exec (data_tracking_start create_ok set_cb_ok now) w = Some w' ->
  prev_latitude (s_info w') = prev_latitude (s_info w)
  /\ prev_longitude (s_info w') = prev_longitude (s_info w).
Proof.
  intros Hrun. run_data; injection Hrun as <-; split; reflexivity.
Qed.

(** Hence a fix that follows a stop and a start is measured against the
    last fix before the stop. *)
Lemma fix_after_restart_is_measured
    (stop_ok create_ok set_cb_ok : bool) (start : float)
    (latitude longitude : float) (preference : option float) (now : float)
    (distance : float) (w w1 w2 w3 : world) :
  position_uninitiated (s_info w) = false ->
  exec (data_tracking_stop stop_ok) w = Some w1 ->
  exec (data_tracking_start create_ok set_cb_ok start) w1 = Some w2 ->
  get_distance latitude longitude
    (prev_latitude (s_info w)) (prev_longitude (s_info w)) = Some distance ->
  exec (_pos_updated_cb get_distance latitude longitude preference now) w2
    = Some w3 ->
  total_distance (s_info w3) = total_distance (s_info w2) + distance
  /\ exists fare,
       In (FareChanged fare) (notified w3)
       /\ In (CaloriesChanged (calories (s_info w3))) (notified w3).
Proof.
  intros Hcal Hstop Hstart Hd Hfix.
  apply stop_keeps_prev_position in Hstop as [Hlat1 Hlon1].
  apply start_keeps_prev_position in Hstart as [Hlat2 Hlon2].
  assert (Hcal2 : position_uninitiated (s_info w2) = false).
  { rewrite position_uninitiated_prev, Hlat2, Hlon2, Hlat1, Hlon1.
    exact Hcal. }
  rewrite <- Hlat1, <- Hlon1, <- Hlat2, <- Hlon2 in Hd.
  destruct (measured_fix latitude longitude preference now distance w2 w3
              Hcal2 Hd Hfix) as (Htot & _ & _ & _ & _ & fare & _ & Hnot).
  split; [exact Htot|]. exists fare. rewrite Hnot.
  split; apply in_or_app; right; apply in_or_app; right; cbn; auto.
Qed.

(** A measured fix is handled without undefined behaviour when the fare
    and calorie observers are attached and the fare of the new total fits
    an [int]. *)
Lemma measured_fix_defined
    (latitude longitude : float) (preference : option float) (now : float)
    (distance : float) (w : world) :
  position_uninitiated (s_info w) = false ->
  get_distance latitude longitude
    (prev_latitude (s_info w)) (prev_longitude (s_info w)) = Some distance ->
  fare_count_changed_callback (s_info w) = true ->
  calorie_count_changed_callback (s_info w) = true ->
  fare_of_distance (total_distance (s_info w) + distance) <> None ->
  exists w',
    exec (_pos_updated_cb get_distance latitude longitude preference now) w
      = Some w'
    /\ total_distance (s_info w') = total_distance (s_info w) + distance
    /\ prev_latitude (s_info w') = latitude
    /\ prev_longitude (s_info w') = longitude
    /\ fare_count_changed_callback (s_info w') = true
    /\ calorie_count_changed_callback (s_info w') = true.
Proof.
  intros Hcal Hd Hfare Hcalorie Hdef.
  unfold exec, _pos_updated_cb, count_fare, calorieBurner, bind, get,
    lift_option, call, emit, modify, ret. cbn.
  rewrite Hcal, Hd. cbn.
  destruct (position_changed_callback (s_info w)); cbn;
    (destruct (fare_of_distance (total_distance (s_info w) + distance))
       as [fare|]; [|congruence]);
    cbn; rewrite Hfare; cbn; rewrite Hcalorie; cbn;
    eexists; split_conj; try reflexivity; cbn; assumption.
Qed.

(** A stream of fixes from a stored, genuine previous position, every
    distance computed: the total grows by the left-to-right sum of the
    distances between consecutive fixes. *)
Lemma measured_fixes_total (fixes : list position_fix) :
  forall (previous : float * float) (w : world),
    prev_latitude (s_info w) = fst previous ->
    prev_longitude (s_info w) = snd previous ->
    is_sentinel_position previous = false ->
    fare_count_changed_callback (s_info w) = true ->
    calorie_count_changed_callback (s_info w) = true ->
    Forall (fun f => is_sentinel_position (fix_position f) = false) fixes ->
    Forall (fun o => o <> None)
           (consecutive_distances get_distance previous
              (map fix_position fixes)) ->
    Forall (fun t => fare_of_distance t <> None)
           (running_totals (total_distance (s_info w))
              (consecutive_distances get_distance previous
                 (map fix_position fixes))) ->
    exists w',
      exec (deliver_fixes get_distance fixes) w = Some w'
      /\ total_distance (s_info w')
         = add_distances (total_distance (s_info w))
             (consecutive_distances get_distance previous
                (map fix_position fixes)).
Proof.
  induction fixes as [|f rest IH];
    intros previous w Hlat Hlon Hprev Hfare Hcalorie Hfixes Hds Hdef.
  - exists w. split; reflexivity.
  - cbn [deliver_fixes fold_right]. rewrite exec_bind.
    inversion Hfixes as [|? ? Hf Hrest]; subst.
    cbn [map consecutive_distances fix_position fst snd] in Hds, Hdef |- *.
    inversion Hds as [|? ? Hd Hds']; subst.
    destruct (get_distance (fix_latitude f) (fix_longitude f)
                (fst previous) (snd previous))
      as [d|] eqn:Hgd; [|congruence].
    cbn [running_totals] in Hdef.
    inversion Hdef as [|? ? Hdef1 Hdef']; subst.
    assert (Hcal : position_uninitiated (s_info w) = false).
    { rewrite position_uninitiated_prev, Hlat, Hlon.
      destruct previous; exact Hprev. }
    rewrite <- Hlat, <- Hlon in Hgd.
    destruct (measured_fix_defined (fix_latitude f) (fix_longitude f)
                (fix_preference f) (fix_now f) d w
                Hcal Hgd Hfare Hcalorie Hdef1)
      as (w1 & Hstep & Htot & Hlat1 & Hlon1 & Hfare1 & Hcalorie1).
    unfold exec in Hstep.
    destruct (_pos_updated_cb get_distance (fix_latitude f) (fix_longitude f)
                (fix_preference f) (fix_now f) w)
      as [[[] w1']|]; [|discriminate].
    cbn in Hstep. injection Hstep as ->.
    unfold add_distances. cbn [fold_left]. rewrite <- Htot.
    apply (IH (fix_position f) w1 Hlat1 Hlon1 Hf Hfare1 Hcalorie1 Hrest Hds').
    rewrite Htot. exact Hdef'.
Qed.

(** Where the first fix of a session finds the previous position unset,
    as in the first session of a process, the total is the sum: the
    first fix seeds, and after the N-th fix [total_distance] has grown by
    the left-to-right sum of the platform's distances between each pair
    of consecutive fixes, whatever weight and clock value each fix
    meets.  (The fixes are genuine coordinates, every distance asked for
    is computed, the fare and calorie observers are attached and every
    fare on the way fits an [int], so that the run is defined.) *)
Lemma seeded_session_total_is_sum_of_distances
    (first : position_fix) (rest : list position_fix) (w : world) :
  position_uninitiated (s_info w) = true ->
  fare_count_changed_callback (s_info w) = true ->
  calorie_count_changed_callback (s_info w) = true ->
  Forall (fun f => is_sentinel_position (fix_position f) = false)
         (first :: rest) ->
  Forall (fun o => o <> None)
         (consecutive_distances get_distance (fix_position first)
            (map fix_position rest)) ->
  Forall (fun t => fare_of_distance t <> None)
         (running_totals (total_distance (s_info w))
            (consecutive_distances get_distance (fix_position first)
               (map fix_position rest))) ->
  exists w',
    exec (deliver_fixes get_distance (first :: rest)) w = Some w'
    /\ total_distance (s_info w')
       = add_distances (total_distance (s_info w))
           (consecutive_distances get_distance (fix_position first)
              (map fix_position rest)).
Proof.
  intros Hcal Hfare Hcalorie Hfixes Hds Hdef.
  cbn [deliver_fixes fold_right]. rewrite exec_bind.
  pose proof (calibration_fix_seeds (fix_latitude first) (fix_longitude first)
                (fix_preference first) (fix_now first) w Hcal) as Hseed.
  unfold exec in Hseed.
  destruct (_pos_updated_cb get_distance
              (fix_latitude first) (fix_longitude first)
              (fix_preference first) (fix_now first) w)
    as [[[] w1]|]; [|discriminate].
  cbn in Hseed. injection Hseed as ->.
  inversion Hfixes as [|? ? Hf Hrest]; subst.
  exact (measured_fixes_total rest (fix_position first)
           {| s_info := set_prev_position
                          (fix_latitude first) (fix_longitude first) (s_info w);
              notified := notified w;
              database := database w |}
           eq_refl eq_refl Hf Hfare Hcalorie Hrest Hds Hdef).
Qed.

End Position.

(** C1.  The first fix after a stop-triggered reset is not a calibration
    call.  After a session with two fixes is stopped and a new one
    started, the stored previous position is still the last fix of the
    old session; the first fix of the new session is measured against it:
    [total_distance] goes from 0 to 9990 m and the distance, fare and
    calorie observers fire. *)
Theorem first_fix_after_restart_is_measured :
  exec (run grid_distance restart_events) world_init = Some world_restarted
  /\ total_distance (s_info world_restarted) = 0
  /\ prev_latitude (s_info world_restarted) = 23.71
  /\ prev_longitude (s_info world_restarted) = 90.40
  /\ exists w',
       exec (handle grid_distance (Position 23.80 90.40 None 11))
            world_restarted = Some w'
       /\ total_distance (s_info w') = 9989.9999999999836
       /\ notified w' =
          notified world_restarted
          ++ [DistanceChanged 9989.9999999999836;
              FareChanged 54;
              CaloriesChanged 12.550480995166602].
Proof.
  split_conj; try (vm_compute; reflexivity).
  eexists. evaluate.
Qed.

(** The first session of a process at three fixes, each with its own
    clock value. *)
Lemma first_session_total_is_sum_of_distances :
  exists w',
    exec (deliver_fixes grid_distance
            [ {| fix_latitude := 23.70; fix_longitude := 90.40;
                 fix_preference := None; fix_now := 1 |};
              {| fix_latitude := 23.71; fix_longitude := 90.40;
                 fix_preference := None; fix_now := 2 |};
              {| fix_latitude := 23.72; fix_longitude := 90.40;
                 fix_preference := Some 65; fix_now := 3 |} ])
         world_started = Some w'
    /\ total_distance (s_info w')
       = add_distances (total_distance (s_info world_started))
           (consecutive_distances grid_distance (23.70, 90.40)
              [(23.71, 90.40); (23.72, 90.40)]).
Proof.
  apply (seeded_session_total_is_sum_of_distances grid_distance
           {| fix_latitude := 23.70; fix_longitude := 90.40;
              fix_preference := None; fix_now := 1 |}
           [ {| fix_latitude := 23.71; fix_longitude := 90.40;
                fix_preference := None; fix_now := 2 |};
             {| fix_latitude := 23.72; fix_longitude := 90.40;
                fix_preference := Some 65; fix_now := 3 |} ]
           world_started).
  - vm_compute. reflexivity.
  - reflexivity.
  - reflexivity.
  - repeat (apply Forall_cons; [vm_compute; reflexivity|]). apply Forall_nil.
  - eval_list.
    repeat (apply Forall_cons; [discriminate|]). apply Forall_nil.
  - eval_list.
    repeat (apply Forall_cons; [vm_compute; discriminate|]). apply Forall_nil.
Qed.

(** C5.  In a session that follows a stopped one the total is not the
    sum of the distances between the session's consecutive fixes.  The
    second session starts with [total_distance = 0] but with the last fix
    of the first session, (23.71, 90.40), still stored as the previous
    position (the defect of C1).  Its two fixes, (23.80, 90.40) and
    (23.81, 90.40), are 1110 m apart, so the claim gives a total of
    1110 m; the code measures the first of them against the stored
    position and ends with 11100 m: the 9990 m between the sessions are
    counted. *)
Theorem second_session_total_includes_gap :
  exec (run grid_distance restart_events) world_init = Some world_restarted
  /\ total_distance (s_info world_restarted) = 0
  /\ grid_distance 23.80 90.40 23.71 90.40 = Some 9989.9999999999836
  /\ grid_distance 23.81 90.40 23.80 90.40 = Some 1109.9999999997792
  /\ add_distances 0
       (consecutive_distances grid_distance (23.80, 90.40) [(23.81, 90.40)])
     = 1109.9999999997792
  /\ exists w',
       exec (run grid_distance [Position 23.80 90.40 None 11;
                                Position 23.81 90.40 None 12])
            world_restarted = Some w'
       /\ total_distance (s_info w') = 11099.999999999764
       /\ (total_distance (s_info w') =? 1109.9999999997792) = false.
Proof.
  split_conj; try (vm_compute; reflexivity).
  eexists. evaluate.
Qed.

(** ** The session controller *)

Section Session.

Variable get_distance : float -> float -> float -> float -> option float.

(** With a location manager, stopping resets the three counters. *)
Lemma stop_resets_counters (stop_ok : bool) (w : world) :
  location_manager (s_info w) = true ->
  fare_count_changed_callback (s_info w) = true ->
  fare_of_distance (total_distance (s_info w)) <> None ->
  exists w',
    exec (data_tracking_stop stop_ok) w = Some w'
    /\ total_distance (s_info w') = 0
    /\ steps_count (s_info w') = 0%Z
    /\ calories (s_info w') = 0.
Proof.
  intros Hlm Hcb Hfare. unfold exec, data_tracking_stop,
    _data_distance_tracker_stop, _data_save_db, count_fare, bind, get. cbn.
  rewrite Hlm, Hcb. cbn.
  destruct (fare_of_distance (total_distance (s_info w))) as [fare|];
    [|congruence].
  run_data; eexists; repeat split.
Qed.

(** Without one, [_data_distance_tracker_stop] returns at once and the
    counters stay. *)
Lemma stop_without_location_manager (stop_ok : bool) (w : world) :
  location_manager (s_info w) = false ->
  exists w',
    exec (data_tracking_stop stop_ok) w = Some w'
    /\ total_distance (s_info w') = total_distance (s_info w)
    /\ steps_count (s_info w') = steps_count (s_info w)
    /\ calories (s_info w') = calories (s_info w)
    /\ database w' = database w.
Proof.
  intros Hlm. unfold exec, data_tracking_stop,
    _data_distance_tracker_stop, bind, get. cbn. rewrite Hlm.
  run_data; eexists; repeat split.
Qed.

(** Every step of a run keeps the invariant. *)
Lemma handle_keeps_invariant (e : event) (w w' : world) :
  tracker_invariant w ->
  exec (handle get_distance e) w = Some w' ->
  tracker_invariant w'.
Proof.
  intros [Hdist Hacc] Hrun.
  destruct e; run_data; injection Hrun as <-; split; cbn;
    intros; auto using FloatOrder.ltb_irrefl; try congruence.
Qed.

Lemma run_keeps_invariant (es : list event) :
  forall w w',
    tracker_invariant w ->
    exec (run get_distance es) w = Some w' ->
    tracker_invariant w'.
Proof.
  induction es as [|e es IH]; intros w w' Hinv Hrun.
  - cbn in Hrun. injection Hrun as <-. exact Hinv.
  - cbn [run] in Hrun. rewrite exec_bind in Hrun.
    destruct (handle get_distance e w) as [[[] w1]|] eqn:Hstep;
      [|discriminate].
    apply (IH w1 w'); [|exact Hrun].
    apply (handle_keeps_invariant e w w1 Hinv).
    unfold exec. rewrite Hstep. reflexivity.
Qed.

Lemma reachable_invariant (w : world) :
  reachable get_distance w -> tracker_invariant w.
Proof.
  intros [es Hrun]. apply (run_keeps_invariant es world_init w); [|exact Hrun].
  split; intros; reflexivity.
Qed.

(** What [_data_save_db] does to the database, by its guard. *)
Lemma stop_database (stop_ok : bool) (w : world) (fare : Z) :
  location_manager (s_info w) = true ->
  fare_count_changed_callback (s_info w) = true ->
  fare_of_distance (total_distance (s_info w)) = Some fare ->
  exists w',
    exec (data_tracking_stop stop_ok) w = Some w'
    /\ database w' =
       database w
       ++ (if (0 <? steps_count (s_info w))%Z
              && (0 <? C.double_to_float (total_distance (s_info w)))
           then [{| qd_distance := C.double_to_float (total_distance (s_info w));
                    qd_steps := steps_count (s_info w);
                    qd_calories := C.double_to_float (calories (s_info w));
                    qd_fare := fare |}]
           else []).
Proof.
  intros Hlm Hcb Hfare. unfold exec, data_tracking_stop,
    _data_distance_tracker_stop, _data_save_db, count_fare, bind, get. cbn.
  rewrite Hlm, Hcb, Hfare. cbn.
  run_data; eexists; split; try reflexivity; cbn;
    rewrite ?app_nil_r; reflexivity.
Qed.

(** C6.  Stopping writes no session record when [steps_count] is 0 or
    [total_distance], converted to [float], is 0; it writes exactly one
    record, holding the session's figures, when both are strictly
    positive.  ([stop] is defined as soon as the fare observer is
    attached and the fare is representable.) *)
Theorem record_written_iff_positive (stop_ok : bool) (w : world) :
  reachable get_distance w ->
  fare_count_changed_callback (s_info w) = true ->
  fare_of_distance (total_distance (s_info w)) <> None ->
  exists w',
    exec (data_tracking_stop stop_ok) w = Some w'
    /\ (steps_count (s_info w) = 0%Z
        \/ (C.double_to_float (total_distance (s_info w)) =? 0) = true ->
        database w' = database w)
    /\ ((0 < steps_count (s_info w))%Z ->
        (0 <? C.double_to_float (total_distance (s_info w))) = true ->
        exists fare,
          fare_of_distance (total_distance (s_info w)) = Some fare
          /\ database w' =
             database w
             ++ [{| qd_distance := C.double_to_float (total_distance (s_info w));
                    qd_steps := steps_count (s_info w);
                    qd_calories := C.double_to_float (calories (s_info w));
                    qd_fare := fare |}]).
Proof.
  intros Hreach Hcb Hfare.
  destruct (reachable_invariant w Hreach) as [Hdist _].
  destruct (location_manager (s_info w)) eqn:Hlm.
  - destruct (fare_of_distance (total_distance (s_info w))) as [fare|] eqn:Hf;
      [|congruence].
    destruct (stop_database stop_ok w fare Hlm Hcb Hf) as (w' & Hrun & Hdb).
    exists w'. split; [exact Hrun|]. split.
    + intros [Hsteps|Hzero]; rewrite Hdb.
      * rewrite Hsteps. cbn. apply app_nil_r.
      * rewrite (FloatOrder.eqb_zero_not_pos _ Hzero), andb_false_r.
        apply app_nil_r.
    + intros Hsteps Hpos. exists fare. split; [reflexivity|].
      rewrite Hdb, Hpos. apply Z.ltb_lt in Hsteps. rewrite Hsteps.
      reflexivity.
  - destruct (stop_without_location_manager stop_ok w Hlm)
      as (w' & Hrun & _ & _ & _ & Hdb).
    exists w'. split; [exact Hrun|]. split.
    + intros _. exact Hdb.
    + intros _ Hpos. rewrite (Hdist eq_refl) in Hpos.
      vm_compute in Hpos. discriminate.
Qed.

(** C9 as amended.  With its three observers attached,
    [data_tracking_start] called with [steps_count = 0] notifies, in
    this order, the step observer with 0, the distance observer with
    the current [total_distance] and the fare observer with 0; called
    with [steps_count <> 0] it notifies nobody. *)
Theorem start_reemits_current_metrics
    (create_ok set_cb_ok : bool) (now : float) (w : world) :
  steps_count_changed_callback (s_info w) = true ->
  position_changed_callback (s_info w) = true ->
  fare_count_changed_callback (s_info w) = true ->
  exists w',
    exec (data_tracking_start create_ok set_cb_ok now) w = Some w'
    /\ start_time (s_info w') = now
    /\ notified w' =
       notified w
       ++ (if (steps_count (s_info w) =? 0)%Z
           then [StepsChanged 0;
                 DistanceChanged (total_distance (s_info w));
                 FareChanged 0]
           else []).
Proof.
  intros Hs Hp Hf.
  unfold exec, data_tracking_start, _data_distance_tracker_start,
    _data_distance_tracker_init, _data_distance_tracker_destroy,
    _data_acceleration_sensor_start, bind, get, modify, ret.
  destruct (location_manager (s_info w)), create_ok, set_cb_ok; cbn;
    destruct (steps_count (s_info w) =? 0)%Z eqn:Hz; cbn;
    rewrite ?Hs, ?Hp, ?Hf; cbn;
    eexists; repeat split; rewrite <- ?app_assoc, ?app_nil_r; cbn;
    try apply Z.eqb_eq in Hz; rewrite ?Hz; reflexivity.
Qed.

End Session.

Lemma world_tracking_reachable : reachable grid_distance world_tracking.
Proof. exists session_events. vm_compute. reflexivity. Qed.

Lemma world_walking_reachable : reachable grid_distance world_walking.
Proof. exists walking_events. vm_compute. reflexivity. Qed.

Lemma world_stepped_reachable : reachable grid_distance world_stepped.
Proof. exists stepped_events. vm_compute. reflexivity. Qed.

Lemma record_written_iff_positive_witness :
  exists w',
    exec (data_tracking_stop true) world_stepped = Some w'
    /\ (steps_count (s_info world_stepped) = 0%Z
        \/ (C.double_to_float (total_distance (s_info world_stepped)) =? 0)
           = true ->
        database w' = database world_stepped)
    /\ ((0 < steps_count (s_info world_stepped))%Z ->
        (0 <? C.double_to_float (total_distance (s_info world_stepped)))
          = true ->
        exists fare,
          fare_of_distance (total_distance (s_info world_stepped)) = Some fare
          /\ database w' =
             database world_stepped
             ++ [{| qd_distance :=
                      C.double_to_float (total_distance (s_info world_stepped));
                    qd_steps := steps_count (s_info world_stepped);
                    qd_calories :=
                      C.double_to_float (calories (s_info world_stepped));
                    qd_fare := fare |}]).
Proof.
  apply (record_written_iff_positive grid_distance true world_stepped).
  - exact world_stepped_reachable.
  - reflexivity.
  - vm_compute. discriminate.
Defined.

Lemma start_reemits_current_metrics_witness :
  exists w',
    exec (data_tracking_start true true 10) world_tracking = Some w'
    /\ start_time (s_info w') = 10
    /\ notified w' =
       notified world_tracking
       ++ (if (steps_count (s_info world_tracking) =? 0)%Z
           then [StepsChanged 0;
                 DistanceChanged (total_distance (s_info world_tracking));
                 FareChanged 0]
           else []).
Proof.
  apply (start_reemits_current_metrics true true 10 world_tracking);
    reflexivity.
Defined.

(** C9 as stated fails: in a running session that has accumulated
    1110 m and no step, a second [data_tracking_start] finds
    [steps_count = 0] and notifies the distance observer with 1110 m, not
    with 0. *)
Lemma start_reemits_nonzero_distance :
  exec (run grid_distance session_events) world_init = Some world_tracking
  /\ steps_count (s_info world_tracking) = 0%Z
  /\ exists w',
       exec (data_tracking_start true true 10) world_tracking = Some w'
       /\ notified w' =
          notified world_tracking
          ++ [StepsChanged 0; DistanceChanged 1110.0000000001735;
              FareChanged 0]
       /\ (1110.0000000001735 =? 0) = false.
Proof.
  split_conj; try (vm_compute; reflexivity).
  eexists. evaluate.
Qed.

(** C2.  On a device without location service the counters survive the
    stop: after one detected step, [data_tracking_stop] leaves
    [steps_count] at 1. *)
Theorem stop_without_location_keeps_steps :
  exec (run grid_distance degraded_events) world_init = Some world_degraded
  /\ location_manager (s_info world_degraded) = false
  /\ steps_count (s_info world_degraded) = 1%Z
  /\ exists w',
       exec (data_tracking_stop true) world_degraded = Some w'
       /\ steps_count (s_info w') = 1%Z.
Proof.
  split_conj; try (vm_compute; reflexivity).
  eexists. evaluate.
Qed.

(** ** The fare *)

Lemma whole_metres_agree_sound (n : nat) :
  forall d z,
    whole_metres_agree n d = true ->
    (d <= z < d + Z.of_nat n)%Z ->
    fare_of_distance (metres z) = Some (10 + (z - 1000) / 200)%Z
    /\ fare_spec_exact (metres z) = Some (10 + (z - 1000) / 200)%Z.
Proof.
  induction n as [|n IH]; intros d z Hall Hz; [lia|].
  cbn [whole_metres_agree] in Hall. apply andb_prop in Hall as [Hd Hrest].
  destruct (Z.eq_dec z d) as [->|Hne].
  - destruct (fare_of_distance (metres d)) as [f|]; [|discriminate].
    destruct (fare_spec_exact (metres d)) as [g|]; [|discriminate].
    apply andb_prop in Hd as [Hf Hg].
    apply Z.eqb_eq in Hf, Hg. subst. split; reflexivity.
  - apply (IH (d + 1)%Z z Hrest). lia.
Qed.

Lemma whole_metres_agree_100km :
  whole_metres_agree (Z.to_nat 99000) 1001 = true.
Proof. vm_compute. reflexivity. Qed.

(** C3 as amended.  [count_fare] returns, and hands to the fare
    observer, the fare of the accumulated distance [d].  That fare is 0
    for a distance up to 1000; above 1000 it is the double
    [10 + (d / 1000 - 1) * 5], every operation rounded to binary64,
    converted to [int]: the base fare is added before the truncation.  In particular fare(999) = 0, fare(1000) = 0,
    fare(2000) = 15 and fare(3000) = 20, and at every whole number of
    metres from 1001 to 100000 the fare is the exact
    [10 + floor ((d / 1000 - 1) * 5)]. *)
Theorem fare_of_distance_value (d : float) :
  (forall w,
     total_distance (s_info w) = d ->
     fare_count_changed_callback (s_info w) = true ->
     count_fare w
     = option_map
         (fun fare => (fare, {| s_info := s_info w;
                                notified := notified w ++ [FareChanged fare];
                                database := database w |}))
         (fare_of_distance d))
  /\ ((d <=? 1000) = true -> fare_of_distance d = Some 0%Z)
  /\ ((1000 <? d) = true ->
      fare_of_distance d = C.double_to_int (10 + (d / 1000 - 1) * 5))
  /\ fare_of_distance 999 = Some 0%Z
  /\ fare_of_distance 1000 = Some 0%Z
  /\ fare_of_distance 2000 = Some 15%Z
  /\ fare_of_distance 3000 = Some 20%Z
  /\ (forall z : Z,
        (1000 < z <= 100000)%Z ->
        fare_of_distance (metres z) = Some (10 + (z - 1000) / 200)%Z
        /\ fare_spec_exact (metres z) = Some (10 + (z - 1000) / 200)%Z).
Proof.
  split_conj.
  - intros w <- Hcb.
    unfold count_fare, bind, get, lift_option, call, emit, ret. cbn.
    destruct (fare_of_distance (total_distance (s_info w))); cbn;
      [rewrite Hcb|]; reflexivity.
  - intros Hle. unfold fare_of_distance.
    rewrite (FloatOrder.leb_not_gtb _ _ Hle). reflexivity.
  - intros Hgt. unfold fare_of_distance, fare_amount. rewrite Hgt. reflexivity.
  - vm_compute. reflexivity.
  - vm_compute. reflexivity.
  - vm_compute. reflexivity.
  - vm_compute. reflexivity.
  - intros z Hz.
    apply (whole_metres_agree_sound _ 1001 z whole_metres_agree_100km).
    change (Z.of_nat (Z.to_nat 99000)) with 99000%Z. lia.
Qed.

Lemma fare_of_distance_value_witness :
  fare_of_distance 500 = Some 0%Z
  /\ fare_of_distance 2500
     = C.double_to_int (10 + (2500 / 1000 - 1) * 5)
  /\ fare_of_distance (metres 1200) = Some (10 + (1200 - 1000) / 200)%Z.
Proof.
  split; [|split].
  - apply (proj1 (proj2 (fare_of_distance_value 500))). reflexivity.
  - apply (proj1 (proj2 (proj2 (fare_of_distance_value 2500)))). reflexivity.
  - apply (proj2 (proj2 (proj2 (proj2 (proj2 (proj2 (proj2
             (fare_of_distance_value 0))))))) 1200%Z). lia.
Defined.

(** C3 as stated fails.  At the double just below 1600 the code returns
    13, while [10 + floor ((d / 1000 - 1) * 5)] is 12, in binary64 and in
    exact arithmetic alike: the sum [10 + 2.999999999999999] rounds up to
    13 before it is truncated.  At 1200 the code returns 11 where the
    formula evaluated in binary64 gives 10. *)
Lemma fare_differs_from_formula :
  (1000 <? below_1600) = true
  /\ fare_of_distance below_1600 = Some 13%Z
  /\ fare_spec_binary64 below_1600 = Some 12%Z
  /\ fare_spec_exact below_1600 = Some 12%Z
  /\ fare_of_distance 1200 = Some 11%Z
  /\ fare_spec_binary64 1200 = Some 10%Z.
Proof. evaluate. Qed.

(** ** The accelerometer callback *)

Section Accelerometer.

Variable get_distance : float -> float -> float -> float -> option float.

(** C4.  For a sample [(x, y, z)] arriving once the baseline is seeded,
    that is in any state whose [init_acc_av] is no longer the "not set"
    value, a step is registered ([steps_count] incremented, the step
    observer, if attached, notified with the new count) exactly when
    [prev_acc_av > init_acc_av] and [init_acc_av - current_avg > 0.2],
    where [current_avg = (|x| + |y| + |z|) / 3]; with or without a
    step, [prev_acc_av] is then [current_avg] and the baseline is
    kept. *)
Theorem step_registered_iff_drop (x y z : float) (w : world) :
  accel_uninitiated (init_acc_av (s_info w)) = false ->
  (steps_count (s_info w) < C.INT_MAX)%Z ->
  exists w',
    exec (_accel_cb x y z) w = Some w'
    /\ prev_acc_av (s_info w') = (abs x + abs y + abs z) / 3
    /\ init_acc_av (s_info w') = init_acc_av (s_info w)
    /\ steps_count (s_info w') =
       (if (init_acc_av (s_info w) <? prev_acc_av (s_info w))
           && (0.2 <? init_acc_av (s_info w) - (abs x + abs y + abs z) / 3)
        then (steps_count (s_info w) + 1)%Z
        else steps_count (s_info w))
    /\ notified w' =
       notified w
       ++ (if (init_acc_av (s_info w) <? prev_acc_av (s_info w))
              && (0.2 <? init_acc_av (s_info w) - (abs x + abs y + abs z) / 3)
              && steps_count_changed_callback (s_info w)
           then [StepsChanged (steps_count (s_info w) + 1)%Z]
           else []).
Proof.
  intros Hcal Hmax.
  apply Z.ltb_lt in Hmax.
  change ((abs x + abs y + abs z) / 3) with (current_acc_av x y z).
  assert (Hstep : step_detected (s_info w) (current_acc_av x y z)
                  = (init_acc_av (s_info w) <? prev_acc_av (s_info w))
                    && (0.2 <? init_acc_av (s_info w) - current_acc_av x y z))
    by reflexivity.
  rewrite <- Hstep.
  unfold exec, _accel_cb, bind, get, modify, ret. cbn.
  rewrite Hcal.
  destruct (step_detected (s_info w) (current_acc_av x y z)); cbn.
  - unfold C.int_succ. rewrite Hmax. cbn.
    destruct (steps_count_changed_callback (s_info w)); cbn;
      eexists; (split; [reflexivity|]); cbn; rewrite ?app_nil_r; auto.
  - eexists. split; [reflexivity|]. cbn. rewrite app_nil_r. auto.
Qed.

(** C10 as amended.  Once the stored baseline is outside the sentinel
    range, no sample re-seeds it, whatever its value.  The sentinel
    collides with real input only through the calibration sample
    itself: when its average lies within 0.0001 of 1000, the baseline
    it stores still reads as "not set" and the next sample, whatever
    its value, is taken for the calibration sample again, becoming
    [init_acc_av] and [prev_acc_av] without a step. *)
Theorem sentinel_collision_at_calibration (x y z : float) (w : world) :
  (accel_uninitiated (init_acc_av (s_info w)) = false ->
   forall w',
     exec (_accel_cb x y z) w = Some w' ->
     init_acc_av (s_info w') = init_acc_av (s_info w))
  /\ (accel_uninitiated (init_acc_av (s_info w)) = true ->
      accel_uninitiated ((abs x + abs y + abs z) / 3) = true ->
      forall x' y' z',
      exists w1 w2,
        exec (_accel_cb x y z) w = Some w1
        /\ init_acc_av (s_info w1) = (abs x + abs y + abs z) / 3
        /\ exec (_accel_cb x' y' z') w1 = Some w2
        /\ init_acc_av (s_info w2) = (abs x' + abs y' + abs z') / 3
        /\ prev_acc_av (s_info w2) = (abs x' + abs y' + abs z') / 3
        /\ steps_count (s_info w2) = steps_count (s_info w)
        /\ notified w2 = notified w).
Proof.
  split.
  - intros Hcal w' Hrun.
    unfold exec, _accel_cb, bind, get in Hrun. cbn in Hrun.
    rewrite Hcal in Hrun. run_data; injection Hrun as <-; reflexivity.
  - intros Hcal Hsample x' y' z'.
    unfold exec, _accel_cb, bind, get, modify, current_acc_av. cbn.
    rewrite Hcal. cbn. eexists. eexists.
    split; [reflexivity|]. split; [reflexivity|]. cbn.
    rewrite Hsample. cbn. repeat split.
Qed.

End Accelerometer.

Lemma step_registered_iff_drop_witness :
  exists w',
    exec (_accel_cb 0 0 9.0) world_walking = Some w'
    /\ prev_acc_av (s_info w') = (abs 0 + abs 0 + abs 9.0) / 3
    /\ init_acc_av (s_info w') = init_acc_av (s_info world_walking)
    /\ steps_count (s_info w') =
       (if (init_acc_av (s_info world_walking)
            <? prev_acc_av (s_info world_walking))
           && (0.2 <? init_acc_av (s_info world_walking)
                      - (abs 0 + abs 0 + abs 9.0) / 3)
        then (steps_count (s_info world_walking) + 1)%Z
        else steps_count (s_info world_walking))
    /\ notified w' =
       notified world_walking
       ++ (if (init_acc_av (s_info world_walking)
               <? prev_acc_av (s_info world_walking))
              && (0.2 <? init_acc_av (s_info world_walking)
                         - (abs 0 + abs 0 + abs 9.0) / 3)
              && steps_count_changed_callback (s_info world_walking)
           then [StepsChanged (steps_count (s_info world_walking) + 1)%Z]
           else []).
Proof.
  apply (step_registered_iff_drop 0 0 9.0 world_walking).
  - vm_compute. reflexivity.
  - vm_compute. reflexivity.
Defined.

(** The calibration sample (1000, 1000, 1000) of a fresh session leaves
    the baseline in the sentinel range; the next sample re-seeds it. *)
Lemma sentinel_collision_at_calibration_witness :
  exists w1 w2,
    exec (_accel_cb 1000 1000 1000) world_tracking = Some w1
    /\ init_acc_av (s_info w1) = (abs 1000 + abs 1000 + abs 1000) / 3
    /\ exec (_accel_cb 0 0 9.8) w1 = Some w2
    /\ init_acc_av (s_info w2) = (abs 0 + abs 0 + abs 9.8) / 3
    /\ prev_acc_av (s_info w2) = (abs 0 + abs 0 + abs 9.8) / 3
    /\ steps_count (s_info w2) = steps_count (s_info world_tracking)
    /\ notified w2 = notified world_tracking.
Proof.
  apply (proj2 (sentinel_collision_at_calibration 1000 1000 1000
                  world_tracking));
    vm_compute; reflexivity.
Defined.

(** C10 as stated fails.  In a session calibrated to the baseline
    9.8 / 3, the sample (1000, 1000, 1000), whose average is exactly
    1000, does not re-seed: [init_acc_av] keeps the baseline and only
    [prev_acc_av] becomes 1000. *)
Lemma mid_session_sample_does_not_reseed :
  exec (run grid_distance walking_events) world_init = Some world_walking
  /\ accel_uninitiated (init_acc_av (s_info world_walking)) = false
  /\ accel_uninitiated (current_acc_av 1000 1000 1000) = true
  /\ exists w',
       exec (_accel_cb 1000 1000 1000) world_walking = Some w'
       /\ init_acc_av (s_info w') = init_acc_av (s_info world_walking)
       /\ init_acc_av (s_info w') = 3.2666666666666671
       /\ prev_acc_av (s_info w') = 1000.
Proof.
  split_conj; try (vm_compute; reflexivity).
  eexists. evaluate.
Qed.

(** ** Failed distance computations *)

Section DistanceError.

Variable get_distance : float -> float -> float -> float -> option float.

(** C7.  When the distance computation of a non-calibration position
    event reports an error, the event is dropped: the whole world is as
    before, in particular [total_distance], [prev_latitude] and
    [prev_longitude] keep their values and no observer is notified. *)
Theorem failed_distance_drops_event
    (latitude longitude : float) (preference : option float) (now : float)
    (w : world) :
  position_uninitiated (s_info w) = false ->
  get_distance latitude longitude
    (prev_latitude (s_info w)) (prev_longitude (s_info w)) = None ->
  exists w',
    exec (_pos_updated_cb get_distance latitude longitude preference now) w
      = Some w'
    /\ w' = w
    /\ total_distance (s_info w') = total_distance (s_info w)
    /\ prev_latitude (s_info w') = prev_latitude (s_info w)
    /\ prev_longitude (s_info w') = prev_longitude (s_info w)
    /\ notified w' = notified w.
Proof.
  intros Hcal Herr. exists w.
  unfold exec, _pos_updated_cb, bind, get, ret. cbn.
  rewrite Hcal, Herr. cbn. repeat split; reflexivity.
Qed.

End DistanceError.

Lemma failed_distance_drops_event_witness :
  exists w',
    exec (_pos_updated_cb grid_distance 123.71 90.40 None 3) world_tracking
      = Some w'
    /\ w' = world_tracking
    /\ total_distance (s_info w') = total_distance (s_info world_tracking)
    /\ prev_latitude (s_info w') = prev_latitude (s_info world_tracking)
    /\ prev_longitude (s_info w') = prev_longitude (s_info world_tracking)
    /\ notified w' = notified world_tracking.
Proof.
  apply (failed_distance_drops_event grid_distance 123.71 90.40 None 3
           world_tracking); vm_compute; reflexivity.
Defined.

(** ** Monotone counters *)

Section Monotone.

Variable get_distance : float -> float -> float -> float -> option float.

(** The platform's contract: a distance is a non-negative number. *)
Hypothesis distance_nonneg :
  forall lat1 lon1 lat2 lon2 d,
    get_distance lat1 lon1 lat2 lon2 = Some d -> (0 <=? d) = true.

(** A position event leaves the total as it is or adds the platform's
    distance to it, and never touches the step count. *)
Lemma pos_updated_counters
    (latitude longitude : float) (preference : option float) (now : float)
    (w w' : world) :
  exec (_pos_updated_cb get_distance latitude longitude preference now) w
    = Some w' ->
  steps_count (s_info w') = steps_count (s_info w)
  /\ (total_distance (s_info w') = total_distance (s_info w)
      \/ exists d,
           get_distance latitude longitude
             (prev_latitude (s_info w)) (prev_longitude (s_info w)) = Some d
           /\ total_distance (s_info w') = total_distance (s_info w) + d).
Proof.
  intros Hrun. run_data; injection Hrun as <-; cbn; split; eauto.
Qed.

(** An acceleration event leaves the total as it is and the step count
    as it is or one higher. *)
Lemma accel_counters (x y z : float) (w w' : world) :
  exec (_accel_cb x y z) w = Some w' ->
  total_distance (s_info w') = total_distance (s_info w)
  /\ (steps_count (s_info w) <= steps_count (s_info w'))%Z.
Proof.
  intros Hrun.
  run_data; injection Hrun as <-; cbn; split; try reflexivity; try lia.
  all: match goal with
       | H : C.int_succ _ = Some _ |- _ =>
           unfold C.int_succ in H;
           destruct (steps_count (s_info w) <? C.INT_MAX)%Z;
           [injection H as <-; lia|discriminate]
       end.
Qed.

Lemma handle_keeps_nonneg (e : event) (w w' : world) :
  (0 <=? total_distance (s_info w)) = true ->
  exec (handle get_distance e) w = Some w' ->
  (0 <=? total_distance (s_info w')) = true.
Proof.
  intros Hnn Hrun. destruct e.
  - run_data; injection Hrun as <-; exact Hnn.
  - run_data; injection Hrun as <-; exact Hnn.
  - run_data; injection Hrun as <-; exact Hnn.
  - run_data; injection Hrun as <-; cbn; solve [exact Hnn | reflexivity].
  - unfold handle in Hrun. rewrite exec_bind in Hrun. cbn in Hrun.
    destruct (location_manager (s_info w)).
    + apply pos_updated_counters in Hrun as [_ [->|(d & Hd & ->)]];
        [exact Hnn|].
      apply FloatAdd.add_nonneg_increasing;
        [exact Hnn|exact (distance_nonneg _ _ _ _ _ Hd)].
    + injection Hrun as <-. exact Hnn.
  - unfold handle in Hrun. rewrite exec_bind in Hrun. cbn in Hrun.
    destruct (acceleration_listener (s_info w)).
    + apply accel_counters in Hrun as [-> _]. exact Hnn.
    + injection Hrun as <-. exact Hnn.
Qed.

Lemma run_keeps_nonneg (es : list event) :
  forall w w',
    (0 <=? total_distance (s_info w)) = true ->
    exec (run get_distance es) w = Some w' ->
    (0 <=? total_distance (s_info w')) = true.
Proof.
  induction es as [|e es IH]; intros w w' Hnn Hrun.
  - cbn in Hrun. injection Hrun as <-. exact Hnn.
  - cbn [run] in Hrun. rewrite exec_bind in Hrun.
    destruct (handle get_distance e w) as [[[] w1]|] eqn:Hstep;
      [|discriminate].
    apply (IH w1 w'); [|exact Hrun].
    apply (handle_keeps_nonneg e w w1 Hnn).
    unfold exec. rewrite Hstep. reflexivity.
Qed.

(** C8.  On a platform whose distances are non-negative, every position
    event and every acceleration event handled in a world a run can
    reach leaves [total_distance] and [steps_count] greater than or
    equal to their previous values. *)
Theorem counters_never_decrease (e : event) (w w' : world) :
  reachable get_distance w ->
  is_sensor_event e = true ->
  exec (handle get_distance e) w = Some w' ->
  (total_distance (s_info w) <=? total_distance (s_info w')) = true
  /\ (steps_count (s_info w) <= steps_count (s_info w'))%Z.
Proof.
  intros [es Hreach] Hsensor Hrun.
  assert (Hnn : (0 <=? total_distance (s_info w)) = true).
  { apply (run_keeps_nonneg es world_init w); [reflexivity|exact Hreach]. }
  destruct e; try discriminate Hsensor;
    unfold handle in Hrun; rewrite exec_bind in Hrun; cbn in Hrun.
  - destruct (location_manager (s_info w)).
    + apply pos_updated_counters in Hrun as [-> [->|(d & Hd & ->)]].
      * split; [apply FloatAdd.leb_refl_nonneg; exact Hnn|lia].
      * split; [|lia].
        apply FloatAdd.add_nonneg_increasing;
          [exact Hnn|exact (distance_nonneg _ _ _ _ _ Hd)].
    + injection Hrun as <-.
      split; [apply FloatAdd.leb_refl_nonneg; exact Hnn|lia].
  - destruct (acceleration_listener (s_info w)).
    + apply accel_counters in Hrun as [-> Hsteps].
      split; [apply FloatAdd.leb_refl_nonneg; exact Hnn|exact Hsteps].
    + injection Hrun as <-.
      split; [apply FloatAdd.leb_refl_nonneg; exact Hnn|lia].
Qed.

End Monotone.

Lemma constant_distance_nonneg (lat1 lon1 lat2 lon2 d : float) :
  constant_distance 12.5 lat1 lon1 lat2 lon2 = Some d -> (0 <=? d) = true.
Proof. intros [= <-]. reflexivity. Qed.

Lemma counters_never_decrease_witness :
  (total_distance (s_info world_paced)
   <=? total_distance
         (s_info (world_after_paced_fix world_paced))) = true
  /\ (steps_count (s_info world_paced)
      <= steps_count (s_info (world_after_paced_fix world_paced)))%Z.
Proof.
  apply (counters_never_decrease (constant_distance 12.5)
           constant_distance_nonneg
           (Position 23.71 90.40 None 3) world_paced).
  - exists (boot ++ [Start true true 0;
                     Position 23.70 90.40 None 1;
                     Position 23.70 90.40 None 2]).
    vm_compute. reflexivity.
  - reflexivity.
  - vm_compute. reflexivity.
Defined.


(** * Further properties of the module *)

(** ** What the module emits *)

Section Logs.

Variable get_distance : float -> float -> float -> float -> option float.

(** X1.  Whatever the event, the notifications already delivered and the
    rows already stored stay as they are: an event only appends.  At most
    one row is appended, and only by a stop. *)
Theorem logs_only_grow (e : event) (w w' : world) :
  exec (handle get_distance e) w = Some w' ->
  (exists ns, notified w' = notified w ++ ns)
  /\ (exists rows,
        database w' = database w ++ rows
        /\ (length rows <= 1)%nat
        /\ (rows <> [] -> exists stop_ok, e = Stop stop_ok)).
Proof.
  intros Hrun.
  destruct e; run_data; injection Hrun as <-; cbn; split;
    rewrite <- ?app_assoc;
    first
      [ exists (@nil notification); now rewrite app_nil_r
      | now eexists
      | exists (@nil QueryData); rewrite app_nil_r;
        split_conj; [reflexivity|cbn; lia|congruence]
      | eexists; split_conj;
        [reflexivity|cbn; lia|intros _; eexists; reflexivity] ].
Qed.

(** A stop stores a row only behind its guard. *)
Lemma handle_keeps_rows_positive (e : event) (w w' : world) :
  Forall (fun r => (0 < qd_steps r)%Z /\ (0 <? qd_distance r) = true)
         (database w) ->
  exec (handle get_distance e) w = Some w' ->
  Forall (fun r => (0 < qd_steps r)%Z /\ (0 <? qd_distance r) = true)
         (database w').
Proof.
  intros Hdb Hrun.
  destruct e; run_data; injection Hrun as <-; cbn; try exact Hdb.
  all: apply Forall_app; split; [exact Hdb|].
  all: match goal with
       | H : (_ && _)%bool = true |- _ => apply andb_prop in H as [Hs Hd]
       end.
  all: constructor; [|constructor]; cbn; split;
         [apply Z.ltb_lt; exact Hs|exact Hd].
Qed.

(** X2.  Every row a run has stored holds a positive step count and a
    positive distance. *)
Theorem stored_rows_are_positive (w : world) :
  reachable get_distance w ->
  Forall (fun r => (0 < qd_steps r)%Z /\ (0 <? qd_distance r) = true)
         (database w).
Proof.
  intros [es Hrun]. revert Hrun.
  assert (Hinit : Forall (fun r => (0 < qd_steps r)%Z
                                   /\ (0 <? qd_distance r) = true)
                         (database world_init)) by constructor.
  revert Hinit. generalize world_init as w0. revert w.
  induction es as [|e es IH]; intros w w0 Hinit Hrun.
  - cbn in Hrun. injection Hrun as <-. exact Hinit.
  - cbn [run] in Hrun. rewrite exec_bind in Hrun.
    destruct (handle get_distance e w0) as [[[] w1]|] eqn:Hstep;
      [|discriminate].
    apply (IH w w1); [|exact Hrun].
    apply (handle_keeps_rows_positive e w0 w1 Hinit).
    unfold exec. rewrite Hstep. reflexivity.
Qed.

End Logs.

(** ** Start, stop, set-up and tear-down *)

Section Controller.

Variable get_distance : float -> float -> float -> float -> option float.

(** X3.  Stopping a session that has a location manager and then
    starting the next one notifies the fare observer with the final fare
    of the old session and then the three observers with zeros; the new
    session begins with both counters at 0. *)
Theorem restart_emits_zeros
    (stop_ok create_ok set_cb_ok : bool) (now : float) (w : world) :
  location_manager (s_info w) = true ->
  steps_count_changed_callback (s_info w) = true ->
  position_changed_callback (s_info w) = true ->
  fare_count_changed_callback (s_info w) = true ->
  fare_of_distance (total_distance (s_info w)) <> None ->
  exists w' fare,
    exec (bind (data_tracking_stop stop_ok)
               (fun _ => data_tracking_start create_ok set_cb_ok now)) w
      = Some w'
    /\ fare_of_distance (total_distance (s_info w)) = Some fare
    /\ notified w' =
       notified w
       ++ [FareChanged fare; StepsChanged 0; DistanceChanged 0; FareChanged 0]
    /\ total_distance (s_info w') = 0
    /\ steps_count (s_info w') = 0%Z
    /\ start_time (s_info w') = now.
Proof.
  intros Hlm Hs Hp Hf Hfare.
  destruct (fare_of_distance (total_distance (s_info w))) as [fare|] eqn:Hv;
    [|congruence].
  unfold exec, data_tracking_stop, data_tracking_start,
    _data_distance_tracker_stop, _data_save_db, count_fare,
    _data_distance_tracker_start, _data_acceleration_sensor_start,
    _data_acceleration_sensor_stop, insertIntoDb,
    bind, get, modify, lift_option, call, emit, ret. cbn.
  rewrite Hlm, Hv. cbn. rewrite Hf. cbn.
  destruct ((0 <? steps_count (s_info w))%Z
            && (0 <? C.double_to_float (total_distance (s_info w)))); cbn;
    destruct (acceleration_listener (s_info w)); cbn;
    try (destruct stop_ok; cbn);
    rewrite ?Hlm, ?Hs, ?Hp, ?Hf; cbn;
    rewrite ?Hlm, ?Hs, ?Hp, ?Hf; cbn;
    exists_world fare.
Qed.

(** X4.  A stop with both handles present resets the three counters
    and, when the listener stops, the accelerometer calibration; when
    [sensor_listener_stop] fails the calibration stays.  In both cases
    the previous position and the start time are kept. *)
Theorem stop_resets_all_but_position (stop_ok : bool) (w : world) :
  location_manager (s_info w) = true ->
  acceleration_listener (s_info w) = true ->
  fare_count_changed_callback (s_info w) = true ->
  fare_of_distance (total_distance (s_info w)) <> None ->
  exists w',
    exec (data_tracking_stop stop_ok) w = Some w'
    /\ total_distance (s_info w') = 0
    /\ steps_count (s_info w') = 0%Z
    /\ calories (s_info w') = 0
    /\ init_acc_av (s_info w')
       = (if stop_ok then MAX_ACCEL_INIT_VALUE else init_acc_av (s_info w))
    /\ prev_acc_av (s_info w')
       = (if stop_ok then MAX_ACCEL_INIT_VALUE else prev_acc_av (s_info w))
    /\ prev_latitude (s_info w') = prev_latitude (s_info w)
    /\ prev_longitude (s_info w') = prev_longitude (s_info w)
    /\ start_time (s_info w') = start_time (s_info w).
Proof.
  intros Hlm Hal Hf Hfare.
  destruct (fare_of_distance (total_distance (s_info w))) as [fare|] eqn:Hv;
    [|congruence].
  unfold exec, data_tracking_stop, _data_distance_tracker_stop, _data_save_db,
    count_fare, _data_acceleration_sensor_stop, insertIntoDb,
    bind, get, modify, lift_option, call, emit, ret. cbn.
  rewrite Hlm, Hv. cbn. rewrite Hf. cbn.
  destruct ((0 <? steps_count (s_info w))%Z
            && (0 <? C.double_to_float (total_distance (s_info w)))); cbn;
    rewrite Hal; cbn; destruct stop_ok; cbn;
    eexists; split_conj; reflexivity.
Qed.

(** X5.  No event clears the location manager handle, and neither does
    [data_finalize], which clears the listener handle only: after the
    tear-down the module still holds the destroyed manager. *)
Theorem location_manager_is_never_cleared (w : world) :
  location_manager (s_info w) = true ->
  (forall e w',
     exec (handle get_distance e) w = Some w' ->
     location_manager (s_info w') = true)
  /\ exists w',
       exec data_finalize w = Some w'
       /\ location_manager (s_info w') = true
       /\ acceleration_listener (s_info w') = false.
Proof.
  intros Hlm. split.
  - intros e w' Hrun.
    destruct e; run_data; injection Hrun as <-; cbn; congruence.
  - unfold exec, data_finalize, _data_distance_tracker_destroy,
      _data_acceleration_sensor_release_handle, bind, get, modify, ret. cbn.
    destruct (acceleration_listener (s_info w)) eqn:Hal; cbn;
      eexists; split_conj; try reflexivity; assumption.
Qed.

(** X6.  [data_initialize] reports the accelerometer alone: from a state
    without handles it returns true exactly when the four listener calls
    succeed, and then holds the listener; a location manager is held
    exactly when GPS is enabled and the manager could be created, which
    the result does not show. *)
Theorem data_initialize_reports_listener
    (gps_enabled create_ok set_cb_ok : bool)
    (supported default_ok listener_ok listener_cb_ok : bool) (w : world) :
  location_manager (s_info w) = false ->
  acceleration_listener (s_info w) = false ->
  exists w',
    data_initialize gps_enabled create_ok set_cb_ok
      supported default_ok listener_ok listener_cb_ok w
    = Some (supported && default_ok && listener_ok && listener_cb_ok, w')
    /\ acceleration_listener (s_info w')
       = supported && default_ok && listener_ok && listener_cb_ok
    /\ location_manager (s_info w') = gps_enabled && create_ok
    /\ notified w' = notified w
    /\ database w' = database w.
Proof.
  intros Hlm Hal.
  unfold data_initialize, _data_distance_tracker_init,
    _data_distance_tracker_destroy, _data_acceleration_sensor_init_handle,
    bind, get, modify, ret.
  destruct gps_enabled, create_ok, set_cb_ok,
    supported, default_ok, listener_ok, listener_cb_ok; cbn;
    eexists; split_conj; try reflexivity; assumption.
Qed.

(** X7.  Starting never touches what a session has accumulated: the
    counters, the calories, the previous position, the accelerometer
    calibration and the database are as before; only the start time is
    set. *)
Theorem start_keeps_session
    (create_ok set_cb_ok : bool) (now : float) (w w' : world) :
  exec (data_tracking_start create_ok set_cb_ok now) w = Some w' ->
  total_distance (s_info w') = total_distance (s_info w)
  /\ steps_count (s_info w') = steps_count (s_info w)
  /\ calories (s_info w') = calories (s_info w)
  /\ prev_latitude (s_info w') = prev_latitude (s_info w)
  /\ prev_longitude (s_info w') = prev_longitude (s_info w)
  /\ init_acc_av (s_info w') = init_acc_av (s_info w)
  /\ prev_acc_av (s_info w') = prev_acc_av (s_info w)
  /\ database w' = database w
  /\ start_time (s_info w') = now.
Proof.
  intros Hrun. run_data; injection Hrun as <-; split_conj; reflexivity.
Qed.

(** X8.  [data_tracking_start] calls its three observers without a NULL
    check: with [steps_count = 0] and one of them missing the call is
    undefined, whereas with [steps_count <> 0] no observer is needed. *)
Theorem start_needs_observers
    (create_ok set_cb_ok : bool) (now : float) (w : world) :
  ((steps_count (s_info w) = 0)%Z ->
   steps_count_changed_callback (s_info w)
   && position_changed_callback (s_info w)
   && fare_count_changed_callback (s_info w) = false ->
   data_tracking_start create_ok set_cb_ok now w = None)
  /\ ((steps_count (s_info w) <> 0)%Z ->
      exists w',
        exec (data_tracking_start create_ok set_cb_ok now) w = Some w'
        /\ notified w' = notified w).
Proof.
  split.
  - intros Hz Hcb.
    unfold data_tracking_start, _data_distance_tracker_start,
      _data_distance_tracker_init, _data_distance_tracker_destroy,
      _data_acceleration_sensor_start, call, emit, undefined,
      bind, get, modify, ret.
    destruct (location_manager (s_info w)), create_ok, set_cb_ok; cbn;
      rewrite Hz; cbn;
      destruct (steps_count_changed_callback (s_info w)); cbn;
      try reflexivity;
      destruct (position_changed_callback (s_info w)); cbn;
      try reflexivity;
      destruct (fare_count_changed_callback (s_info w)); cbn;
      try reflexivity; discriminate.
  - intros Hnz. apply Z.eqb_neq in Hnz.
    unfold exec, data_tracking_start, _data_distance_tracker_start,
      _data_distance_tracker_init, _data_distance_tracker_destroy,
      _data_acceleration_sensor_start, bind, get, modify, ret.
    destruct (location_manager (s_info w)), create_ok, set_cb_ok; cbn;
      rewrite Hnz; cbn; eexists; split; reflexivity.
Qed.


(** X10.  Observers are never detached: every event keeps the four
    function pointers, except for their attachment itself. *)
Theorem observers_stay_attached (e : event) (w w' : world) :
  exec (handle get_distance e) w = Some w' ->
  e <> AttachCallbacks ->
  position_changed_callback (s_info w') = position_changed_callback (s_info w)
  /\ steps_count_changed_callback (s_info w')
     = steps_count_changed_callback (s_info w)
  /\ fare_count_changed_callback (s_info w')
     = fare_count_changed_callback (s_info w)
  /\ calorie_count_changed_callback (s_info w')
     = calorie_count_changed_callback (s_info w).
Proof.
  intros Hrun Hne.
  destruct e; try congruence;
    run_data; injection Hrun as <-; split_conj; cbn; congruence.
Qed.

End Controller.

(** ** Sign of a binary64 difference, quotient and product *)

Module FloatSign.

Import FloatAdd.

Local Open Scope Z_scope.

(** What [binary_round_aux] returns carries the sign it was given: with
    the negative sign the result is not above zero. *)
Lemma binary_round_aux_negative (m e : Z) (l : SpecFloat.location) :
  SFltb (S754_zero false) (binary_round_aux prec emax true m e l) = false.
Proof.
  unfold binary_round_aux.
  destruct (shr_fexp prec emax m e l) as [mrs1 e1].
  destruct (shr_fexp prec emax _ e1 loc_Exact) as [mrs2 e2].
  destruct (shr_m mrs2); try reflexivity.
  destruct (e2 <=? emax - prec); reflexivity.
Qed.

Lemma binary_normalize_nonpositive (n e : Z) :
  n <= 0 ->
  SFltb (S754_zero false) (binary_normalize prec emax n e false) = false.
Proof.
  intros Hn. destruct n as [|p|p]; [reflexivity|lia|].
  cbn [binary_normalize]. unfold binary_round.
  destruct (shl_align p e _) as [mz ez]. apply binary_round_aux_negative.
Qed.

Lemma shr_fexp_nonneg (m e : Z) (l : SpecFloat.location) :
  0 <= m -> 0 <= shr_m (fst (shr_fexp prec emax m e l)).
Proof.
  intros Hm. unfold shr_fexp, shr.
  destruct (fexp prec emax (Zdigits2 m + e) - e) as [|p|p]; cbn [fst];
    try (rewrite shr_record_of_loc_m; exact Hm).
  rewrite iter_shr_1 by (rewrite shr_record_of_loc_m; exact Hm).
  rewrite shr_record_of_loc_m. apply Z.div_pos; [exact Hm|].
  apply pow2_pos. lia.
Qed.

(** With the positive sign and a non-negative mantissa the result is a
    number that is at least zero. *)
Lemma binary_round_aux_nonneg (m e : Z) (l : SpecFloat.location) :
  0 <= m ->
  SFleb (S754_zero false) (binary_round_aux prec emax false m e l) = true.
Proof.
  intros Hm. unfold binary_round_aux.
  pose proof (shr_fexp_nonneg m e l Hm) as H1.
  destruct (shr_fexp prec emax m e l) as [mrs1 e1]. cbn [fst] in H1.
  pose proof (round_nearest_even_bounds (shr_m mrs1) (loc_of_shr_record mrs1))
    as Hrne.
  pose proof (shr_fexp_nonneg
                (round_nearest_even (shr_m mrs1) (loc_of_shr_record mrs1))
                e1 loc_Exact ltac:(lia)) as H2.
  destruct (shr_fexp prec emax _ e1 loc_Exact) as [mrs2 e2]. cbn [fst] in H2.
  destruct (shr_m mrs2); [reflexivity| |lia].
  destruct (e2 <=? emax - prec); reflexivity.
Qed.

Lemma binary_normalize_nonneg (n e : Z) :
  0 <= n ->
  SFleb (S754_zero false) (binary_normalize prec emax n e false) = true.
Proof.
  intros Hn. destruct n as [|p|p]; [reflexivity| |lia].
  cbn [binary_normalize]. unfold binary_round.
  destruct (shl_align p e _) as [mz ez]. apply binary_round_aux_nonneg. lia.
Qed.

(** A canonical mantissa has at most 53 digits, exactly 53 above the
    least exponent. *)
Lemma bounded_digits (m : positive) (e : Z) :
  bounded prec emax m e = true ->
  -1074 <= e /\ Zpos m < 2 ^ 53 /\ (-1074 < e -> 2 ^ 52 <= Zpos m).
Proof.
  intros H. apply bounded_64 in H.
  pose proof (digits2_bounds m) as [Hlo Hhi].
  assert (Hd : Zpos (digits2_pos m) <= 53) by lia.
  split; [lia|]. split.
  - eapply Z.lt_le_trans; [exact Hhi|]. apply Z.pow_le_mono_r; lia.
  - intros He. assert (Hd53 : Zpos (digits2_pos m) = 53) by lia.
    rewrite Hd53 in Hlo. exact Hlo.
Qed.

(** With a higher exponent comes the larger value. *)
Lemma higher_exponent_larger (m m' : positive) (e e' : Z) :
  bounded prec emax m e = true ->
  bounded prec emax m' e' = true ->
  e < e' ->
  Zpos m < Zpos m' * 2 ^ (e' - e).
Proof.
  intros Hm Hm' He.
  apply bounded_digits in Hm as (Hemin & Hhi & _).
  apply bounded_digits in Hm' as (_ & _ & Hlo').
  specialize (Hlo' ltac:(lia)).
  assert (H2 : 2 ^ 1 <= 2 ^ (e' - e)) by (apply Z.pow_le_mono_r; lia).
  change (2 ^ 1) with 2 in H2.
  change (2 ^ 53) with (2 * 2 ^ 52) in Hhi. nia.
Qed.

(** [SFcompare] orders finite doubles as their aligned mantissas. *)
Lemma SFcompare_Lt_aligned (sx sy : bool) (mx my : positive) (ex ey : Z) :
  bounded prec emax mx ex = true ->
  bounded prec emax my ey = true ->
  SFcompare (S754_finite sx mx ex) (S754_finite sy my ey) = Some Lt ->
  cond_Zopp sx (Zpos (fst (shl_align mx ex (Z.min ex ey))))
  < cond_Zopp sy (Zpos (fst (shl_align my ey (Z.min ex ey)))).
Proof.
  intros Hx Hy Hc.
  rewrite (shl_align_value mx ex (Z.min ex ey)) by lia.
  rewrite (shl_align_value my ey (Z.min ex ey)) by lia.
  assert (Px : 0 < 2 ^ (ex - Z.min ex ey)) by (apply pow2_pos; lia).
  assert (Py : 0 < 2 ^ (ey - Z.min ex ey)) by (apply pow2_pos; lia).
  cbn [SFcompare] in Hc.
  change (PosDef.Pos.compare_cont Eq mx my) with (Pos.compare mx my) in Hc.
  destruct sx, sy; cbn [cond_Zopp]; try discriminate Hc.
  - (* both negative *)
    destruct (Z.compare_spec ex ey) as [Heq|Hlt|Hgt]; try discriminate Hc.
    + subst ey. rewrite Z.min_id, Z.sub_diag in *.
      change (2 ^ 0) with 1. rewrite !Z.mul_1_r.
      destruct (Pos.compare_spec mx my); try discriminate Hc. lia.
    + replace (Z.min ex ey) with ey by lia. rewrite Z.sub_diag.
      change (2 ^ 0) with 1. rewrite !Z.mul_1_r.
      pose proof (higher_exponent_larger my mx ey ex Hy Hx ltac:(lia)). lia.
  - nia.
  - destruct (Z.compare_spec ex ey) as [Heq|Hlt|Hgt]; try discriminate Hc.
    + subst ey. rewrite Z.min_id, Z.sub_diag in *.
      change (2 ^ 0) with 1. rewrite !Z.mul_1_r.
      destruct (Pos.compare_spec mx my); try discriminate Hc. lia.
    + replace (Z.min ex ey) with ex by lia. rewrite Z.sub_diag.
      change (2 ^ 0) with 1. rewrite !Z.mul_1_r.
      pose proof (higher_exponent_larger mx my ex ey Hx Hy ltac:(lia)). lia.
Qed.

(** Finite doubles that compare equal are the same triple. *)
Lemma SFcompare_Eq_finite (sx sy : bool) (mx my : positive) (ex ey : Z) :
  SFcompare (S754_finite sx mx ex) (S754_finite sy my ey) = Some Eq ->
  sx = sy /\ mx = my /\ ex = ey.
Proof.
  cbn [SFcompare].
  change (PosDef.Pos.compare_cont Eq mx my) with (Pos.compare mx my).
  destruct sx, sy; try discriminate;
    destruct (Z.compare_spec ex ey); try discriminate;
    destruct (Pos.compare_spec mx my); try discriminate;
    intros _; subst; auto.
Qed.

(** The difference of a double and a larger one is not above zero. *)
Lemma SFsub_of_smaller (x y : spec_float) :
  valid_binary x = true -> valid_binary y = true ->
  SFltb x y = true ->
  SFltb (S754_zero false) (SFsub prec emax x y) = false.
Proof.
  intros Hx Hy Hlt. unfold SFltb in Hlt.
  destruct (SFcompare x y) as [[| |]|] eqn:Hc; try discriminate Hlt.
  destruct x as [sx|sx| |sx mx ex], y as [sy|sy| |sy my ey];
    cbn in Hc; try discriminate Hc.
  - destruct sy; [discriminate Hc|reflexivity].
  - destruct sy; [discriminate Hc|reflexivity].
  - destruct sx; [reflexivity|discriminate Hc].
  - destruct sx, sy; try discriminate Hc; reflexivity.
  - destruct sx; [reflexivity|discriminate Hc].
  - destruct sx; [reflexivity|discriminate Hc].
  - destruct sy; [discriminate Hc|reflexivity].
  - cbn [SFsub]. apply binary_normalize_nonpositive.
    pose proof (SFcompare_Lt_aligned sx sy mx my ex ey Hx Hy) as H.
    cbn [SFcompare] in H. specialize (H Hc). lia.
Qed.

(** The difference of a double and a finite one that is not larger is at
    least zero. *)
Lemma SFsub_of_larger (x : spec_float) (sy : bool) (my : positive) (ey : Z) :
  valid_binary x = true ->
  bounded prec emax my ey = true ->
  SFleb (S754_finite sy my ey) x = true ->
  SFleb (S754_zero false) (SFsub prec emax x (S754_finite sy my ey)) = true.
Proof.
  intros Hx Hy Hle. unfold SFleb in Hle.
  destruct (SFcompare (S754_finite sy my ey) x) as [[| |]|] eqn:Hc;
    try discriminate Hle; clear Hle.
  - destruct x as [sx|sx| |sx mx ex]; try discriminate Hc.
    + cbn in Hc. destruct sy; discriminate Hc.
    + cbn in Hc. destruct sy, sx; discriminate Hc.
    + apply SFcompare_Eq_finite in Hc as (-> & -> & ->).
      cbn [SFsub]. rewrite Z.sub_diag. reflexivity.
  - destruct x as [sx|sx| |sx mx ex]; try discriminate Hc.
    + cbn in Hc. destruct sy; [reflexivity|discriminate Hc].
    + cbn in Hc. destruct sx; [discriminate Hc|reflexivity].
    + cbn [SFsub]. apply binary_normalize_nonneg.
      pose proof (SFcompare_Lt_aligned sy sx my mx ey ex Hy Hx Hc) as H.
      rewrite (Z.min_comm ex ey). lia.
Qed.

(** Nothing that is not above zero is above a non-negative threshold. *)
Lemma SFltb_not_positive (t r : spec_float) :
  SFleb (S754_zero false) t = true ->
  SFltb (S754_zero false) r = false ->
  SFltb t r = false.
Proof.
  intros Ht Hr.
  destruct t as [st|st| |st mt et], r as [sr|sr| |sr mr er];
    cbn in Ht, Hr |- *; try discriminate; try reflexivity;
    try (destruct st; try discriminate; reflexivity);
    try (destruct sr; try discriminate; reflexivity);
    destruct st, sr; try discriminate; reflexivity.
Qed.

(** The product of a double that is at least zero and a positive finite
    double is at least zero. *)
Lemma SFmul_nonneg (x : spec_float) (my : positive) (ey : Z) :
  SFleb (S754_zero false) x = true ->
  SFleb (S754_zero false) (SFmul prec emax x (S754_finite false my ey)) = true.
Proof.
  intros Hx. destruct x as [sx|sx| |sx mx ex]; cbn in Hx |- *;
    try discriminate.
  - reflexivity.
  - destruct sx; [discriminate|reflexivity].
  - destruct sx; [discriminate|]. cbn [xorb].
    apply binary_round_aux_nonneg. lia.
Qed.

(** The quotient of a double above 1000 by 1000 is at least 1. *)
Lemma SFdiv_by_1000 (x : spec_float) :
  valid_binary x = true ->
  SFltb (Prim2SF 1000%float) x = true ->
  SFleb (Prim2SF 1%float) (SFdiv prec emax x (Prim2SF 1000%float)) = true.
Proof.
  change (Prim2SF 1000%float) with (S754_finite false 8796093022208000 (-43)).
  change (Prim2SF 1%float) with (S754_finite false 4503599627370496 (-52)).
  intros Hv Hlt. unfold SFltb in Hlt.
  destruct x as [s|s| |s m e]; cbn [SFcompare] in Hlt; try discriminate Hlt.
  - destruct s; [discriminate Hlt|reflexivity].
  - destruct s; [discriminate Hlt|].
    cbn [valid_binary] in Hv.
    assert (He : -43 < e \/ (e = -43 /\ 8796093022208000 < Zpos m)).
    { destruct (Z.compare_spec (-43) e) as [Heq|Hl|Hg];
        try discriminate Hlt; [right|left; exact Hl].
      split; [lia|].
      change (PosDef.Pos.compare_cont Eq 8796093022208000 m)
        with (Pos.compare 8796093022208000 m) in Hlt.
      destruct (Pos.compare_spec 8796093022208000 m);
        try discriminate Hlt. lia. }
    clear Hlt.
    pose proof (bounded_digits m e Hv) as (_ & Hhi & Hlo).
    specialize (Hlo ltac:(lia)).
    assert (Hd : Zpos (digits2_pos m) = 53).
    { pose proof (digits2_bounds m) as [H1 H2].
      assert (Zpos (digits2_pos m) - 1 < 53).
      { apply (Z.pow_lt_mono_r_iff 2); [lia|lia|]. lia. }
      assert (52 < Zpos (digits2_pos m)).
      { apply (Z.pow_lt_mono_r_iff 2); [lia|lia|]. lia. }
      lia. }
    cbn [SFdiv xorb]. unfold SFdiv_core_binary. cbn [Zdigits2].
    rewrite Hd.
    replace (Zpos (digits2_pos 8796093022208000)) with 53
      by (vm_compute; reflexivity).
    rewrite fexp_64.
    replace (Z.min (Z.max (53 + e - (53 + -43) - 53) (-1074)) (e - -43))
      with (e - 10) by lia.
    replace (e - -43 - (e - 10)) with 53 by lia.
    cbv beta iota.
    rewrite Z.shiftl_mul_pow2 by lia.
    pose proof (Z.div_eucl_eq (Zpos m * 2 ^ 53) 8796093022208000 ltac:(lia))
      as Hdiv.
    pose proof (Z.mod_pos_bound (Zpos m * 2 ^ 53) 8796093022208000 ltac:(lia))
      as Hmod.
    unfold Z.modulo in Hmod.
    destruct (Z.div_eucl (Zpos m * 2 ^ 53) 8796093022208000) as [q r].
    assert (Hq : 2 ^ 52 <= q /\ (e = -43 -> 2 ^ 53 <= q)).
    { change (2 ^ 53) with 9007199254740992 in *.
      change (2 ^ 52) with 4503599627370496 in *. split; [nia|].
      intros He'. destruct He as [He|[_ He]]; [lia|]. nia. }
    destruct q as [|pq|pq]; [lia| |lia].
    set (k := Z.max 0 (fexp prec emax (Zpos (digits2_pos pq) + (e - 10))
                       - (e - 10))).
    pose proof (digits2_bounds pq) as [Hq1 Hq2].
    assert (Hdq : 52 < Zpos (digits2_pos pq)
                  /\ (e = -43 -> 53 < Zpos (digits2_pos pq))).
    { split; [|intros He'];
        apply (Z.pow_lt_mono_r_iff 2); lia. }
    assert (Hk : k = Zpos (digits2_pos pq) - 53).
    { subst k. rewrite fexp_64. lia. }
    assert (Hpk : 0 < 2 ^ k) by (apply pow2_pos; lia).
    assert (Hqk : 2 ^ 52 <= Zpos pq / 2 ^ k).
    { apply Z.div_le_lower_bound; [exact Hpk|].
      rewrite <- Z.pow_add_r by lia.
      eapply Z.le_trans; [|exact Hq1].
      apply Z.pow_le_mono_r; lia. }
    destruct (binary_round_aux_pos pq (e - 10)
                (new_location 8796093022208000 r) ltac:(lia))
      as [Hinf|(m' & e' & Hfin & Hord)].
    { fold k. change (2 ^ 52) with 4503599627370496 in Hqk. lia. }
    + rewrite Hinf. reflexivity.
    + rewrite Hfin. apply SFleb_finite. fold k in Hord.
      change (2 ^ 52) with 4503599627370496 in Hqk.
      destruct Hord as [Hord|[He' Hm']].
      * left. destruct Hdq as [Hdq1 Hdq2]. lia.
      * destruct (Z.eq_dec e' (-52)) as [Heq|Hne].
        -- right. split; [exact Heq|]. lia.
        -- left. destruct Hdq as [Hdq1 Hdq2]. lia.
Qed.

(** A finite double that is at least 10 truncates to at least 10. *)
Lemma truncate_at_least_10 (s : bool) (m : positive) (e : Z) :
  bounded prec emax m e = true ->
  SFleb (Prim2SF 10%float) (S754_finite s m e) = true ->
  10 <= C.truncate s m e.
Proof.
  change (Prim2SF 10%float) with (S754_finite false 5629499534213120 (-49)).
  intros Hb Hle. unfold SFleb in Hle. cbn [SFcompare] in Hle.
  destruct s; [discriminate Hle|].
  change (PosDef.Pos.compare_cont Eq 5629499534213120 m)
    with (Pos.compare 5629499534213120 m) in Hle.
  assert (He : -49 < e \/ (e = -49 /\ 5629499534213120 <= Zpos m)).
  { destruct (Z.compare_spec (-49) e) as [Heq|Hl|Hg];
      try discriminate Hle; [right|left; exact Hl].
    split; [lia|].
    destruct (Pos.compare_spec 5629499534213120 m);
      try discriminate Hle; lia. }
  clear Hle.
  pose proof (bounded_digits m e Hb) as (_ & _ & Hlo).
  specialize (Hlo ltac:(lia)).
  change (2 ^ 52) with 4503599627370496 in Hlo.
  unfold C.truncate.
  destruct (Z.le_gt_cases 0 e) as [Hpos|Hneg].
  - rewrite Z.shiftl_mul_pow2 by exact Hpos.
    pose proof (pow2_pos e Hpos). nia.
  - rewrite Z.shiftl_div_pow2 by lia.
    apply Z.div_le_lower_bound; [apply pow2_pos; lia|].
    destruct He as [He|[-> Hm]].
    + assert (H48 : 2 ^ (- e) <= 2 ^ 48) by (apply Z.pow_le_mono_r; lia).
      change (2 ^ 48) with 281474976710656 in H48. lia.
    + change (2 ^ (- -49)) with 562949953421312. lia.
Qed.

End FloatSign.

(** If [a - b] exceeds a non-negative threshold then [a] is not below
    [b]. *)
Lemma sub_above_threshold (t a b : float) :
  (0 <=? t) = true -> (t <? a - b) = true -> (a <? b) = false.
Proof.
  intros Ht Hsub. destruct (a <? b) eqn:Hlt; [|reflexivity].
  rewrite ltb_spec in Hlt, Hsub. rewrite sub_spec in Hsub.
  rewrite leb_spec in Ht. change (Prim2SF 0) with (S754_zero false) in Ht.
  rewrite (FloatSign.SFltb_not_positive _ _ Ht) in Hsub; [discriminate|].
  apply FloatSign.SFsub_of_smaller; auto using Prim2SF_valid.
Qed.

(** Above one kilometre the double [count_fare] converts is at least
    the base fare. *)
Lemma fare_amount_at_least_base (d : float) :
  (1000 <? d) = true -> (10 <=? fare_amount d) = true.
Proof.
  intros Hd. unfold fare_amount.
  apply FloatAdd.add_nonneg_increasing; [reflexivity|].
  rewrite leb_spec, mul_spec, sub_spec, div_spec.
  change (Prim2SF 0) with (S754_zero false).
  change (Prim2SF 5) with (S754_finite false 5629499534213120 (-50)).
  apply FloatSign.SFmul_nonneg.
  change (Prim2SF 1) with (S754_finite false 4503599627370496 (-52)).
  apply FloatSign.SFsub_of_larger.
  - rewrite <- div_spec. apply Prim2SF_valid.
  - reflexivity.
  - apply (FloatSign.SFdiv_by_1000 (Prim2SF d)); [apply Prim2SF_valid|].
    rewrite <- ltb_spec. exact Hd.
Qed.

(** A conversion to [int] of a double that is at least 10 gives at least
    10. *)
Lemma double_to_int_at_least_10 (x : float) (n : Z) :
  (10 <=? x) = true ->
  C.double_to_int x = Some n ->
  (10 <= n <= C.INT_MAX)%Z.
Proof.
  intros Hle Hn. rewrite leb_spec in Hle.
  pose proof (Prim2SF_valid x) as Hv.
  unfold C.double_to_int in Hn.
  destruct (Prim2SF x) as [s|s| |s m e]; try discriminate Hn.
  - discriminate Hle.
  - destruct (C.in_int_range (C.truncate s m e)) eqn:Hr; [|discriminate Hn].
    injection Hn as <-.
    unfold C.in_int_range in Hr. apply andb_prop in Hr as [_ Hr].
    apply Z.leb_le in Hr. split; [|exact Hr].
    apply FloatSign.truncate_at_least_10; assumption.
Qed.

(** The fare of a distance is 0 or at least the base fare. *)
Lemma fare_of_distance_range (d : float) (fare : Z) :
  fare_of_distance d = Some fare ->
  ((1000 <? d) = false /\ fare = 0%Z)
  \/ ((1000 <? d) = true /\ (10 <= fare <= C.INT_MAX)%Z).
Proof.
  unfold fare_of_distance. destruct (1000 <? d) eqn:Hd.
  - intros Hf. right. split; [reflexivity|].
    apply (double_to_int_at_least_10 (fare_amount d));
      [apply fare_amount_at_least_base; exact Hd|exact Hf].
  - intros [= <-]. left. split; reflexivity.
Qed.

(** ** The "not yet set" position and real coordinates *)

Module FloatSentinel.

Import FloatAdd.

Local Open Scope Z_scope.

(** Rounding a positive mantissa, with either sign: the result is an
    infinity or a finite number whose exponent is not below the one the
    mantissa is shifted to. *)
Lemma binary_round_aux_exponent
    (s : bool) (m : positive) (e : Z) (l : SpecFloat.location) :
  let k := Z.max 0 (fexp prec emax (Zpos (digits2_pos m) + e) - e) in
  1 <= Zpos m / 2 ^ k ->
  binary_round_aux prec emax s (Zpos m) e l = S754_infinity s
  \/ exists m' e',
       binary_round_aux prec emax s (Zpos m) e l = S754_finite s m' e'
       /\ e + k <= e'.
Proof.
  intros k Hm1. unfold binary_round_aux.
  pose proof (shr_fexp_pos m e l) as [Hm He1]. fold k in Hm, He1.
  destruct (shr_fexp prec emax (Zpos m) e l) as [mrs1 e1]. cbn [fst snd] in *.
  pose proof (round_nearest_even_bounds (shr_m mrs1) (loc_of_shr_record mrs1))
    as Hrne.
  destruct (round_nearest_even (shr_m mrs1) (loc_of_shr_record mrs1))
    as [|m2|m2] eqn:Hm2; [lia| |lia].
  pose proof (shr_fexp_pos m2 e1 loc_Exact) as [Hm3 He3].
  set (k2 := Z.max 0 (fexp prec emax (Zpos (digits2_pos m2) + e1) - e1)) in *.
  destruct (shr_fexp prec emax (Zpos m2) e1 loc_Exact) as [mrs2 e2].
  cbn [fst snd] in *.
  assert (Hk2 : k2 = 0 \/ (0 < k2 /\ k2 = Zpos (digits2_pos m2) - 53)).
  { assert (He1' : -1074 <= e1).
    { rewrite He1. subst k. rewrite fexp_64. lia. }
    subst k2. rewrite fexp_64. lia. }
  assert (Hpos : 1 <= shr_m mrs2).
  { rewrite Hm3. destruct Hk2 as [->|[Hk2 Hk2']].
    - cbn. rewrite Z.div_1_r. lia.
    - pose proof (digits2_bounds m2) as [Hd _].
      apply Z.div_le_lower_bound; [apply pow2_pos; lia|].
      rewrite Z.mul_1_r. eapply Z.le_trans; [|exact Hd].
      apply Z.pow_le_mono_r; lia. }
  destruct (shr_m mrs2) as [|m3|m3] eqn:Hm3'; [lia| |lia].
  destruct (e2 <=? emax - prec); [|left; reflexivity].
  right. exists m3, e2. split; [reflexivity|]. lia.
Qed.

(** A double of at most 90 minus [DBL_MAX] is, in absolute value, not
    below the comparison threshold. *)
Lemma SFsub_DBL_MAX (x : spec_float) :
  valid_binary x = true ->
  SFleb x (Prim2SF 90%float) = true ->
  SFltb (SFabs (SFsub prec emax x (Prim2SF C.DBL_MAX)))
        (Prim2SF DOUBLE_COMPARIZON_THRESHOLD) = false.
Proof.
  change (Prim2SF 90%float) with (S754_finite false 6333186975989760 (-46)).
  change (Prim2SF C.DBL_MAX) with (S754_finite false 9007199254740991 971).
  change (Prim2SF DOUBLE_COMPARIZON_THRESHOLD)
    with (S754_finite false 7378697629483821 (-66)).
  intros Hv Hle.
  destruct x as [s|s| |s m e].
  - reflexivity.
  - destruct s; [reflexivity|discriminate Hle].
  - discriminate Hle.
  - cbn [valid_binary] in Hv.
    
    assert (He : e <= 971 /\ (s = false -> e <= -46)).
    { unfold bounded in Hv. apply andb_prop in Hv as [_ Hv].
      apply Z.leb_le in Hv. change (emax - prec) with 971 in Hv.
      split; [exact Hv|]. intros ->.
      unfold SFleb in Hle. cbn [SFcompare] in Hle.
      destruct (Z.compare_spec e (-46)); try lia; discriminate Hle. }
    cbn [SFsub].
    replace (Z.min e 971) with e by lia.
    rewrite (shl_align_value m e e) by lia.
    rewrite (shl_align_value 9007199254740991 971 e) by lia.
    rewrite Z.sub_diag. change (2 ^ 0) with 1. rewrite Z.mul_1_r.
    cbn [cond_Zopp].
    set (P := 2 ^ (971 - e)).
    assert (HP : 1 <= P /\ (s = false -> 4 <= P)).
    { subst P. split.
      - pose proof (pow2_pos (971 - e) ltac:(lia)). lia.
      - intros Hs. destruct He as [_ He]. specialize (He Hs).
        change 4 with (2 ^ 2). apply Z.pow_le_mono_r; lia. }
    assert (Hn : cond_Zopp s (Zpos m) - 9007199254740991 * P
                 <= - (4503599627370496 * P)).
    { destruct HP as [HP1 HP4].
      destruct s; cbn [cond_Zopp]; [lia|].
      specialize (HP4 eq_refl).
      pose proof (FloatSign.bounded_digits m e Hv) as (_ & Hhi & _).
      change (2 ^ 53) with 9007199254740992 in Hhi. lia. }
    destruct (cond_Zopp s (Zpos m) - 9007199254740991 * P) as [|pn|pn] eqn:Hpn;
      [lia|lia|].
    cbn [binary_normalize]. unfold binary_round.
    assert (Hdig : 1024 - e <= Zpos (digits2_pos pn)).
    { pose proof (digits2_shift_le 1 pn (1023 - e) ltac:(lia)) as H.
      cbn [digits2_pos] in H.
      replace (1024 - e) with (1 + (1023 - e)) by lia. apply H.
      replace (1023 - e) with (52 + (971 - e)) by lia.
      rewrite Z.pow_add_r by lia. fold P.
      change (2 ^ 52) with 4503599627370496. lia. }
    assert (Halign : shl_align pn e (fexp prec emax (Zpos (digits2_pos pn) + e))
                     = (pn, e)).
    { unfold shl_align.
      destruct (fexp prec emax (Zpos (digits2_pos pn) + e) - e) eqn:Hd;
        try reflexivity.
      rewrite fexp_64 in Hd. lia. }
    rewrite Halign.
    set (k := Z.max 0 (fexp prec emax (Zpos (digits2_pos pn) + e) - e)).
    assert (Hk : 971 <= e + k).
    { subst k. rewrite fexp_64. lia. }
    assert (Hs1 : 1 <= Zpos pn / 2 ^ k).
    { pose proof (digits2_bounds pn) as [Hd _].
      apply Z.div_le_lower_bound; [apply pow2_pos; lia|].
      rewrite Z.mul_1_r. eapply Z.le_trans; [|exact Hd].
      apply Z.pow_le_mono_r; [lia|]. subst k. rewrite fexp_64. lia. }
    destruct (binary_round_aux_exponent true pn e loc_Exact Hs1)
      as [->|(m' & e' & -> & Hord)]; [reflexivity|].
    fold k in Hord. cbn [SFabs]. unfold SFltb. cbn [SFcompare].
    assert (Hgt : (e' ?= -66) = Gt) by (apply Z.compare_gt_iff; lia).
    rewrite Hgt. reflexivity.
Qed.

End FloatSentinel.

(** A coordinate of at most 90 is never within the comparison threshold
    of the "not yet set" value. *)
Lemma valid_latitude_is_not_sentinel (p : float) :
  (p <=? 90) = true ->
  (abs (p - LAT_UNINITIATED) <? DOUBLE_COMPARIZON_THRESHOLD) = false.
Proof.
  intros Hp. rewrite ltb_spec, abs_spec, sub_spec.
  apply FloatSentinel.SFsub_DBL_MAX; [apply Prim2SF_valid|].
  rewrite <- leb_spec. exact Hp.
Qed.

(** ** Induction over runs *)

Section Runs.

Variable get_distance : float -> float -> float -> float -> option float.

(** What holds initially and is kept by every event holds in every
    reachable world. *)
Lemma reachable_induction (P : world -> Prop) :
  P world_init ->
  (forall e w w',
     P w -> exec (handle get_distance e) w = Some w' -> P w') ->
  forall w, reachable get_distance w -> P w.
Proof.
  intros Hinit Hstep w [es Hrun]. revert Hrun Hinit.
  generalize world_init as w0. revert w.
  induction es as [|e es IH]; intros w w0 Hrun Hinit.
  - cbn in Hrun. injection Hrun as <-. exact Hinit.
  - cbn [run] in Hrun. rewrite exec_bind in Hrun.
    destruct (handle get_distance e w0) as [[[] w1]|] eqn:Hh; [|discriminate].
    apply (IH w w1 Hrun). apply (Hstep e w0 w1 Hinit).
    unfold exec. rewrite Hh. reflexivity.
Qed.

End Runs.

(** ** The fare *)

Section Fare.

Variable get_distance : float -> float -> float -> float -> option float.

(** X11.  Every fare [count_fare] reports is 0 or at least the base
    fare 10, and it is 0 exactly when the total distance is not above one
    kilometre: no distance is charged 1 to 9 or a negative amount. *)
Theorem fare_is_zero_or_at_least_base (w w' : world) (fare : Z) :
  count_fare w = Some (fare, w') ->
  ((1000 <? total_distance (s_info w)) = false /\ fare = 0%Z)
  \/ ((1000 <? total_distance (s_info w)) = true
      /\ (10 <= fare <= C.INT_MAX)%Z).
Proof.
  unfold count_fare, bind, get, lift_option, call, emit, undefined, ret.
  cbn.
  destruct (fare_of_distance (total_distance (s_info w))) as [f|] eqn:Hf;
    cbn; [|discriminate].
  destruct (fare_count_changed_callback (s_info w)); cbn; [|discriminate].
  intros [= <- _]. apply fare_of_distance_range. exact Hf.
Qed.

Lemma handle_keeps_fares_plausible (e : event) (w w' : world) :
  forallb notification_plausible (notified w) = true
  /\ forallb (fun r => fare_plausible (qd_fare r)) (database w) = true ->
  exec (handle get_distance e) w = Some w' ->
  forallb notification_plausible (notified w') = true
  /\ forallb (fun r => fare_plausible (qd_fare r)) (database w') = true.
Proof.
  intros [Hn Hdb] Hrun.
  assert (Hfare : forall d fare,
            fare_of_distance d = Some fare -> fare_plausible fare = true).
  { intros d fare Hf.
    destruct (fare_of_distance_range d fare Hf) as [[_ ->]|[_ Hge]];
      [reflexivity|].
    unfold fare_plausible. apply orb_true_iff. right. apply Z.leb_le. lia. }
  destruct e; run_data; injection Hrun as <-; cbn;
    rewrite ?forallb_app, ?Hn, ?Hdb; cbn;
    repeat match goal with
           | H : fare_of_distance _ = Some _ |- _ =>
               apply Hfare in H; rewrite ?H
           end;
    split; reflexivity.
Qed.

(** X12.  Every fare a run has shown to the fare observer or stored in
    the database is 0 or at least the base fare 10. *)
Theorem shown_fares_are_plausible (w : world) :
  reachable get_distance w ->
  forallb notification_plausible (notified w) = true
  /\ forallb (fun r => fare_plausible (qd_fare r)) (database w) = true.
Proof.
  apply (reachable_induction get_distance
           (fun w => forallb notification_plausible (notified w) = true
                     /\ forallb (fun r => fare_plausible (qd_fare r))
                                (database w) = true)).
  - split; reflexivity.
  - intros e w0 w1 H0 Hrun.
    exact (handle_keeps_fares_plausible e w0 w1 H0 Hrun).
Qed.

End Fare.

(** ** The step detector *)

Section Steps.

Variable get_distance : float -> float -> float -> float -> option float.

(** X13.  Two samples in a row never both register a step: the sample
    that registers one lies more than the threshold below the baseline,
    and the next test needs the previous average above it. *)
Theorem no_two_steps_in_a_row (x y z x' y' z' : float) (w w1 w2 : world) :
  exec (_accel_cb x y z) w = Some w1 ->
  exec (_accel_cb x' y' z') w1 = Some w2 ->
  steps_count (s_info w1) <> steps_count (s_info w) ->
  steps_count (s_info w2) = steps_count (s_info w1)
  /\ notified w2 = notified w1.
Proof.
  intros H1 H2 Hne.
  unfold exec, _accel_cb, bind, get, modify, lift_option, emit, ret in H1.
  cbn in H1.
  destruct (accel_uninitiated (init_acc_av (s_info w))) eqn:Hun.
  { cbn in H1. injection H1 as <-. cbn in Hne. congruence. }
  destruct (step_detected (s_info w) (current_acc_av x y z)) eqn:Hstep.
  2:{ cbn in H1. injection H1 as <-. cbn in Hne. congruence. }
  destruct (C.int_succ (steps_count (s_info w))) as [n|]; cbn in H1;
    [|discriminate H1].
  assert (Hw1 : init_acc_av (s_info w1) = init_acc_av (s_info w)
                /\ prev_acc_av (s_info w1) = current_acc_av x y z).
  { destruct (steps_count_changed_callback (s_info w)); cbn in H1;
      injection H1 as <-; split; reflexivity. }
  destruct Hw1 as [Hinit Hprev]. clear H1.
  unfold step_detected in Hstep. apply andb_prop in Hstep as [_ Hdrop].
  pose proof (sub_above_threshold TRESHOLD _ _ eq_refl Hdrop) as Hnot.
  unfold exec, _accel_cb, bind, get, modify, lift_option, emit, ret in H2.
  cbn in H2. rewrite Hinit, Hun in H2.
  assert (Hno : step_detected (s_info w1) (current_acc_av x' y' z') = false).
  { unfold step_detected. rewrite Hinit, Hprev, Hnot. reflexivity. }
  rewrite Hno in H2. cbn in H2. injection H2 as <-. split; reflexivity.
Qed.

(** X14.  Once calibrated, the detector counts nothing until a sample
    rises above the baseline: a stream of samples whose averages are
    never above it leaves the step count and the notifications as they
    are, however far the averages drop. *)
Theorem no_step_without_rise (samples : list (float * float * float)) :
  forall w : world,
    accel_uninitiated (init_acc_av (s_info w)) = false ->
    (init_acc_av (s_info w) <? prev_acc_av (s_info w)) = false ->
    Forall (fun s => (init_acc_av (s_info w) <? sample_average s) = false)
           samples ->
    exists w',
      exec (deliver_samples samples) w = Some w'
      /\ steps_count (s_info w') = steps_count (s_info w)
      /\ notified w' = notified w
      /\ init_acc_av (s_info w') = init_acc_av (s_info w).
Proof.
  induction samples as [|[[x y] z] rest IH]; intros w Hun Hprev Hall.
  - exists w. split_conj; reflexivity.
  - inversion Hall as [|s l Hs Hrest]; subst. cbn [sample_average fst snd] in Hs.
    cbn [deliver_samples fold_right fst snd]. fold (deliver_samples rest).
    rewrite exec_bind.
    unfold _accel_cb, bind, get, modify, ret. cbn.
    rewrite Hun. unfold step_detected at 1. rewrite Hprev. cbn.
    match goal with
    | |- exists w', exec _ ?w1 = _ /\ _ =>
        destruct (IH w1) as (w' & Hrun & Hsteps & Hnot & Hinit)
    end.
    + exact Hun.
    + cbn. exact Hs.
    + exact Hrest.
    + exists w'. split; [exact Hrun|]. split_conj; assumption.
Qed.

(** X15.  After a stop whose listener stops, the first sample only
    calibrates: it becomes the baseline and the previous average and
    registers no step, whatever its values. *)
Theorem first_sample_after_stop_calibrates
    (x y z : float) (w w1 w2 : world) :
  acceleration_listener (s_info w) = true ->
  exec (data_tracking_stop true) w = Some w1 ->
  exec (_accel_cb x y z) w1 = Some w2 ->
  init_acc_av (s_info w2) = current_acc_av x y z
  /\ prev_acc_av (s_info w2) = current_acc_av x y z
  /\ steps_count (s_info w2) = steps_count (s_info w1)
  /\ notified w2 = notified w1.
Proof.
  intros Hal H1 H2.
  assert (Hinit : init_acc_av (s_info w1) = MAX_ACCEL_INIT_VALUE).
  { clear H2. run_data; try congruence; injection H1 as <-; reflexivity. }
  clear H1.
  unfold exec, _accel_cb, bind, get, modify, ret in H2. cbn in H2.
  rewrite Hinit in H2.
  change (accel_uninitiated MAX_ACCEL_INIT_VALUE) with true in H2.
  cbn in H2. injection H2 as <-. split_conj; reflexivity.
Qed.

(** X16.  In every reachable world the step count lies between 0 and
    [INT_MAX]. *)
Theorem steps_count_in_range (w : world) :
  reachable get_distance w ->
  (0 <= steps_count (s_info w) <= C.INT_MAX)%Z.
Proof.
  apply (reachable_induction get_distance
           (fun w => (0 <= steps_count (s_info w) <= C.INT_MAX)%Z)).
  - cbn. unfold C.INT_MAX. lia.
  - intros e w0 w1 H0 Hrun.
    destruct e; run_data; injection Hrun as <-; cbn;
      try exact H0; try (unfold C.INT_MAX; lia);
      match goal with
      | H : C.int_succ _ = Some _ |- _ =>
          unfold C.int_succ in H;
          destruct (steps_count (s_info w0) <? C.INT_MAX)%Z eqn:Hlt;
          [|discriminate H];
          injection H as <-; apply Z.ltb_lt in Hlt; lia
      end.
Qed.

End Steps.

(** ** What each event leaves alone *)

Section Frames.

Variable get_distance : float -> float -> float -> float -> option float.

(** X17.  A position fix never touches the pedometer: the step count,
    the accelerometer calibration, the start time, the handles and the
    database are as before, and no step notification is sent. *)
Theorem fix_leaves_pedometer_alone
    (latitude longitude : float) (preference : option float) (now : float)
    (w w' : world) :
  exec (handle get_distance (Position latitude longitude preference now)) w
    = Some w' ->
  steps_count (s_info w') = steps_count (s_info w)
  /\ init_acc_av (s_info w') = init_acc_av (s_info w)
  /\ prev_acc_av (s_info w') = prev_acc_av (s_info w)
  /\ start_time (s_info w') = start_time (s_info w)
  /\ acceleration_listener (s_info w') = acceleration_listener (s_info w)
  /\ database w' = database w
  /\ exists ns,
       notified w' = notified w ++ ns
       /\ existsb is_steps_notification ns = false.
Proof.
  intros Hrun.
  run_data; injection Hrun as <-; cbn; split_conj; try reflexivity;
    rewrite <- ?app_assoc; cbn;
    first [ exists (@nil notification); split;
            [now rewrite app_nil_r|reflexivity]
          | eexists; split; reflexivity ].
Qed.

(** X18.  An accelerometer sample never touches the distance side: the
    total distance, the previous position, the calories, the start time,
    the handles and the database are as before, and at most one
    notification is sent, to the step observer. *)
Theorem sample_leaves_distance_alone (x y z : float) (w w' : world) :
  exec (handle get_distance (Acceleration x y z)) w = Some w' ->
  total_distance (s_info w') = total_distance (s_info w)
  /\ prev_latitude (s_info w') = prev_latitude (s_info w)
  /\ prev_longitude (s_info w') = prev_longitude (s_info w)
  /\ calories (s_info w') = calories (s_info w)
  /\ start_time (s_info w') = start_time (s_info w)
  /\ location_manager (s_info w') = location_manager (s_info w)
  /\ database w' = database w
  /\ (notified w' = notified w
      \/ notified w' = notified w ++ [StepsChanged (steps_count (s_info w'))]).
Proof.
  intros Hrun.
  run_data; injection Hrun as <-; cbn; split_conj; try reflexivity;
    first [left; reflexivity|right; reflexivity].
Qed.

(** X19.  Only a position fix changes the stored previous position:
    set-up, observer attachment, start, stop and accelerometer samples
    all keep it. *)
Theorem previous_position_changes_only_on_fix (e : event) (w w' : world) :
  exec (handle get_distance e) w = Some w' ->
  is_position_event e = false ->
  prev_latitude (s_info w') = prev_latitude (s_info w)
  /\ prev_longitude (s_info w') = prev_longitude (s_info w).
Proof.
  intros Hrun He.
  destruct e; try discriminate He;
    run_data; injection Hrun as <-; split; reflexivity.
Qed.

(** X20.  The calories are computed afresh at every measured fix: what
    was stored before has no influence on the outcome. *)
Theorem calories_do_not_accumulate
    (c : float) (latitude longitude : float) (preference : option float)
    (now : float) (distance : float) (w : world) :
  position_uninitiated (s_info w) = false ->
  get_distance latitude longitude
    (prev_latitude (s_info w)) (prev_longitude (s_info w)) = Some distance ->
  exec (_pos_updated_cb get_distance latitude longitude preference now)
       (with_calories c w)
  = exec (_pos_updated_cb get_distance latitude longitude preference now) w.
Proof.
  intros Hcal Hd.
  unfold exec, _pos_updated_cb, count_fare, calorieBurner, with_calories,
    bind, get, modify, lift_option, call, emit, undefined, ret. cbn.
  change (position_uninitiated (set_calories c (s_info w)))
    with (position_uninitiated (s_info w)).
  rewrite Hcal, Hd. cbn.
  destruct (position_changed_callback (s_info w)); cbn;
    destruct (fare_of_distance (total_distance (s_info w) + distance)); cbn;
    try reflexivity;
    destruct (fare_count_changed_callback (s_info w)); cbn;
    try reflexivity;
    destruct (calorie_count_changed_callback (s_info w)); cbn; reflexivity.
Qed.

End Frames.

(** ** The total distance *)

Section Distance.

Variable get_distance : float -> float -> float -> float -> option float.

Hypothesis distance_nonneg :
  forall lat1 lon1 lat2 lon2 d,
    get_distance lat1 lon1 lat2 lon2 = Some d -> (0 <=? d) = true.

(** X21.  On a platform whose distances are non-negative, the total
    distance of every reachable world is a number that is at least 0:
    never negative and never NaN. *)
Theorem total_distance_is_nonneg (w : world) :
  reachable get_distance w ->
  (0 <=? total_distance (s_info w)) = true.
Proof.
  intros [es Hrun].
  apply (run_keeps_nonneg get_distance distance_nonneg es world_init w);
    [reflexivity|exact Hrun].
Qed.

End Distance.

(** ** The first fix *)

Section Seeding.

Variable get_distance : float -> float -> float -> float -> option float.

Lemma handle_keeps_position_initiated (e : event) (w w' : world) :
  position_uninitiated (s_info w) = false ->
  has_valid_latitude e = true ->
  exec (handle get_distance e) w = Some w' ->
  position_uninitiated (s_info w') = false.
Proof.
  intros Hp Hv Hrun.
  destruct e; cbn in Hv; run_data; injection Hrun as <-; cbn;
    try congruence; try exact Hp;
    unfold position_uninitiated in *; cbn;
    try exact Hp;
    rewrite (valid_latitude_is_not_sentinel _ Hv); reflexivity.
Qed.

(** X22.  The "first fix" branch is taken once per process, not once
    per session: after one fix with a latitude of at most 90 degrees has
    been handled, no later event brings the stored position back to the
    "not yet set" value, so that every later fix with such a latitude is
    measured against it or dropped, also after a stop and a start. *)
Theorem seeding_happens_once
    (latitude longitude : float) (preference : option float) (now : float)
    (es : list event) (w w' : world) :
  location_manager (s_info w) = true ->
  (latitude <=? 90) = true ->
  forallb has_valid_latitude es = true ->
  exec (run get_distance (Position latitude longitude preference now :: es)) w
    = Some w' ->
  position_uninitiated (s_info w') = false.
Proof.
  intros Hlm Hlat Hes Hrun.
  cbn [run] in Hrun. rewrite exec_bind in Hrun.
  destruct (handle get_distance (Position latitude longitude preference now) w)
    as [[[] w1]|] eqn:Hfirst; [|discriminate Hrun].
  assert (H1 : position_uninitiated (s_info w1) = false).
  { clear Hrun Hes.
    assert (Hex : exec (handle get_distance
                          (Position latitude longitude preference now)) w
                  = Some w1) by (unfold exec; rewrite Hfirst; reflexivity).
    clear Hfirst.
    destruct (position_uninitiated (s_info w)) eqn:Hp.
    - run_data; try congruence. injection Hex as <-.
      unfold position_uninitiated. cbn.
      rewrite (valid_latitude_is_not_sentinel _ Hlat). reflexivity.
    - apply (handle_keeps_position_initiated
               (Position latitude longitude preference now) w w1 Hp Hlat Hex). }
  clear Hfirst Hlm. revert w1 H1 Hrun.
  induction es as [|e es IH]; intros w1 H1 Hrun.
  - cbn in Hrun. injection Hrun as <-. exact H1.
  - cbn [forallb] in Hes. apply andb_prop in Hes as [He Hes].
    cbn [run] in Hrun. rewrite exec_bind in Hrun.
    destruct (handle get_distance e w1) as [[[] w2]|] eqn:Hstep;
      [|discriminate Hrun].
    apply (IH Hes w2); [|exact Hrun].
    apply (handle_keeps_position_initiated e w1 w2 H1 He).
    unfold exec. rewrite Hstep. reflexivity.
Qed.

End Seeding.

(** ** A missing observer, a destroyed manager *)

Section Observers.

(** X23.  A stop with a location manager calls the fare observer without
    a NULL check, before anything is saved or reset: with that observer
    missing the stop is undefined. *)
Theorem stop_needs_fare_observer (stop_ok : bool) (w : world) :
  location_manager (s_info w) = true ->
  fare_count_changed_callback (s_info w) = false ->
  data_tracking_stop stop_ok w = None.
Proof.
  intros Hlm Hf.
  unfold data_tracking_stop, _data_distance_tracker_stop, _data_save_db,
    count_fare, bind, get, modify, lift_option, call, emit, undefined, ret.
  cbn. rewrite Hlm. cbn.
  destruct (fare_of_distance (total_distance (s_info w))); cbn;
    [rewrite Hf|]; reflexivity.
Qed.

(** X24.  When the position callback cannot be registered the location
    manager is destroyed but its handle stays in [s_info]: the start that
    created it leaves a handle behind, and no later start attempts to
    create a manager again, whatever the platform would answer. *)
Theorem manager_is_kept_after_failed_registration
    (now : float) (w w' : world) :
  location_manager (s_info w) = false ->
  exec (data_tracking_start true false now) w = Some w' ->
  location_manager (s_info w') = true
  /\ forall create_ok set_cb_ok now',
       data_tracking_start create_ok set_cb_ok now' w'
       = data_tracking_start false false now' w'.
Proof.
  intros Hlm Hrun.
  assert (Hw' : location_manager (s_info w') = true).
  { run_data; try congruence; injection Hrun as <-; reflexivity. }
  split; [exact Hw'|].
  intros create_ok set_cb_ok now'.
  unfold data_tracking_start, _data_distance_tracker_start, bind, get.
  rewrite Hw'. reflexivity.
Qed.

End Observers.

(** ** The labels *)

Module ViewFacts.

Import Ascii String View.

Lemma substring_all (s : String.string) :
  forall n, (String.length s <= n)%nat -> String.substring 0 n s = s.
Proof.
  induction s as [|c s IH]; intros n Hn.
  - destruct n; reflexivity.
  - destruct n as [|n]; cbn in Hn; [lia|].
    cbn. rewrite IH by lia. reflexivity.
Qed.

Lemma digits_length (fuel : nat) :
  forall n acc,
    (String.length (digits fuel n acc) <= fuel + String.length acc)%nat.
Proof.
  induction fuel as [|fuel IH]; intros n acc; cbn [digits].
  - lia.
  - destruct (n <? 10)%Z.
    + cbn. lia.
    + specialize (IH (n / 10)%Z (String.String (digit (n mod 10)) acc)).
      cbn [String.length] in IH. lia.
Qed.

Lemma format_d_length (n : Z) : (String.length (format_d n) <= 11)%nat.
Proof.
  unfold format_d. destruct (n <? 0)%Z.
  - pose proof (digits_length 10 (- n) String.EmptyString) as H.
    cbn [String.length] in H |- *. lia.
  - pose proof (digits_length 10 n String.EmptyString) as H.
    cbn [String.length] in H. lia.
Qed.

Lemma digit_value_digit (m : Z) :
  (0 <= m < 10)%Z -> digit_value (digit m) = m.
Proof.
  intros Hm. unfold digit_value, digit.
  rewrite Ascii.nat_ascii_embedding by lia. lia.
Qed.

Lemma digit_is_not_minus (m : Z) :
  (0 <= m < 10)%Z -> Ascii.eqb (digit m) "-"%char = false.
Proof.
  intros Hm. apply Ascii.eqb_neq. intros Heq.
  apply (f_equal Ascii.nat_of_ascii) in Heq. unfold digit in Heq.
  rewrite Ascii.nat_ascii_embedding in Heq by lia.
  cbn in Heq. lia.
Qed.

(** Reading the digits of [n] back gives [n]. *)
Lemma read_digits_digits (fuel : nat) :
  forall n acc,
    (0 <= n < 10 ^ Z.of_nat fuel)%Z ->
    exists k, forall a,
      read_digits (digits fuel n acc) a
      = read_digits acc (a * 10 ^ Z.of_nat k + n)%Z.
Proof.
  induction fuel as [|fuel IH]; intros n acc Hn.
  - cbn in Hn. assert (n = 0%Z) by lia. subst n.
    exists 0%nat. intros a. cbn [digits]. f_equal.
    change (10 ^ Z.of_nat 0)%Z with 1%Z. lia.
  - cbn [digits].
    assert (Hmod : (0 <= n mod 10 < 10)%Z) by (apply Z.mod_pos_bound; lia).
    destruct (Z.ltb_spec n 10) as [Hlt|Hge].
    + exists 1%nat. intros a. cbn [read_digits].
      rewrite digit_value_digit by exact Hmod.
      rewrite Z.mod_small by lia. f_equal.
      change (10 ^ Z.of_nat 1)%Z with 10%Z. lia.
    + destruct (IH (n / 10)%Z (String.String (digit (n mod 10)) acc))
        as [k Hk].
      { split; [apply Z.div_pos; lia|].
        apply Z.div_lt_upper_bound; [lia|].
        rewrite Nat2Z.inj_succ, Z.pow_succ_r in Hn by lia. lia. }
      exists (S k). intros a. rewrite Hk. cbn [read_digits].
      rewrite digit_value_digit by exact Hmod. f_equal.
      rewrite Nat2Z.inj_succ, Z.pow_succ_r by lia.
      pose proof (Z.div_mod n 10 ltac:(lia)). lia.
Qed.

(** The first character of a numeral is a digit. *)
Lemma digits_head (fuel : nat) :
  forall n acc,
    (0 <= n)%Z ->
    exists m s,
      (0 <= m < 10)%Z
      /\ digits (S fuel) n acc = String.String (digit m) s.
Proof.
  induction fuel as [|fuel IH]; intros n acc Hn.
  - exists (n mod 10)%Z, acc.
    split; [apply Z.mod_pos_bound; lia|].
    cbn [digits]. destruct (n <? 10)%Z; reflexivity.
  - change (digits (S (S fuel)) n acc)
      with (if (n <? 10)%Z
            then String.String (digit (n mod 10)) acc
            else digits (S fuel) (n / 10)
                   (String.String (digit (n mod 10)) acc)).
    destruct (Z.ltb_spec n 10) as [Hlt|Hge].
    + exists (n mod 10)%Z, acc.
      split; [apply Z.mod_pos_bound; lia|reflexivity].
    + apply IH. apply Z.div_pos; lia.
Qed.

Lemma read_d_format_d (n : Z) :
  C.in_int_range n = true -> read_d (format_d n) = n.
Proof.
  intros Hr. unfold C.in_int_range, C.INT_MIN, C.INT_MAX in Hr.
  apply andb_prop in Hr as [Hlo Hhi].
  apply Z.leb_le in Hlo, Hhi.
  unfold format_d. destruct (Z.ltb_spec n 0) as [Hneg|Hpos].
  - cbn [read_d]. change (Ascii.eqb "-"%char "-"%char) with true. cbv iota.
    destruct (read_digits_digits 10 (- n) String.EmptyString) as [k Hk].
    { change (10 ^ Z.of_nat 10)%Z with 10000000000%Z. lia. }
    rewrite Hk. cbn [read_digits]. lia.
  - destruct (digits_head 9 n String.EmptyString Hpos) as (m & s & Hm & Hs).
    destruct (read_digits_digits 10 n String.EmptyString) as [k Hk].
    { change (10 ^ Z.of_nat 10)%Z with 10000000000%Z. lia. }
    unfold read_d. rewrite Hs at 1. rewrite (digit_is_not_minus m Hm).
    rewrite Hk. cbn [read_digits]. lia.
Qed.

End ViewFacts.

(** X25.  For every [int] the steps label and the fare label hold the
    whole decimal numeral: the 16-byte buffers never cut it short (the
    fare label needs at most 15 characters), and reading the numeral back
    gives the number. *)
Theorem labels_are_never_truncated (n : Z) :
  C.in_int_range n = true ->
  View.view_set_steps_count n = View.format_d n
  /\ View.view_set_fare n
     = String.append View.fare_format_prefix (View.format_d n)
  /\ (String.length (View.view_set_fare n) < View.BUF_MAX)%nat
  /\ View.read_d (View.format_d n) = n.
Proof.
  intros Hr. pose proof (ViewFacts.format_d_length n) as Hlen.
  assert (Hfare : View.view_set_fare n
                  = String.append View.fare_format_prefix (View.format_d n)).
  { apply ViewFacts.substring_all. cbn. lia. }
  split_conj.
  - apply ViewFacts.substring_all. cbn. lia.
  - exact Hfare.
  - rewrite Hfare. unfold View.BUF_MAX. cbn. lia.
  - apply ViewFacts.read_d_format_d. exact Hr.
Qed.

Lemma labels_are_never_truncated_witness :
  View.view_set_steps_count C.INT_MIN = View.format_d C.INT_MIN
  /\ View.view_set_fare C.INT_MIN
     = String.append View.fare_format_prefix (View.format_d C.INT_MIN)
  /\ (String.length (View.view_set_fare C.INT_MIN) < View.BUF_MAX)%nat
  /\ View.read_d (View.format_d C.INT_MIN) = C.INT_MIN.
Proof. apply (labels_are_never_truncated C.INT_MIN). reflexivity. Defined.

(** ** The properties at sample worlds *)

Lemma logs_only_grow_witness :
  (exists ns,
     notified (world_after_event (Stop true) world_stepped)
     = notified world_stepped ++ ns)
  /\ (exists rows,
        database (world_after_event (Stop true) world_stepped)
        = database world_stepped ++ rows
        /\ (length rows <= 1)%nat
        /\ (rows <> [] -> exists stop_ok, Stop true = Stop stop_ok)).
Proof.
  apply (logs_only_grow grid_distance (Stop true) world_stepped).
  vm_compute. reflexivity.
Defined.

Lemma world_saved_reachable : reachable grid_distance world_saved.
Proof. exists saved_events. vm_compute. reflexivity. Qed.

Lemma stored_rows_are_positive_witness :
  Forall (fun r => (0 < qd_steps r)%Z /\ (0 <? qd_distance r) = true)
         (database world_saved).
Proof.
  apply (stored_rows_are_positive grid_distance world_saved).
  exact world_saved_reachable.
Defined.

Lemma restart_emits_zeros_witness :
  exists w' fare,
    exec (bind (data_tracking_stop true)
               (fun _ => data_tracking_start true true 20)) world_stepped
      = Some w'
    /\ fare_of_distance (total_distance (s_info world_stepped)) = Some fare
    /\ notified w' =
       notified world_stepped
       ++ [FareChanged fare; StepsChanged 0; DistanceChanged 0; FareChanged 0]
    /\ total_distance (s_info w') = 0
    /\ steps_count (s_info w') = 0%Z
    /\ start_time (s_info w') = 20.
Proof.
  apply (restart_emits_zeros true true true 20 world_stepped);
    try reflexivity.
  vm_compute. discriminate.
Defined.

Lemma stop_resets_all_but_position_witness :
  exists w',
    exec (data_tracking_stop true) world_stepped = Some w'
    /\ total_distance (s_info w') = 0
    /\ steps_count (s_info w') = 0%Z
    /\ calories (s_info w') = 0
    /\ init_acc_av (s_info w') = MAX_ACCEL_INIT_VALUE
    /\ prev_acc_av (s_info w') = MAX_ACCEL_INIT_VALUE
    /\ prev_latitude (s_info w') = prev_latitude (s_info world_stepped)
    /\ prev_longitude (s_info w') = prev_longitude (s_info world_stepped)
    /\ start_time (s_info w') = start_time (s_info world_stepped).
Proof.
  apply (stop_resets_all_but_position true world_stepped);
    try reflexivity.
  vm_compute. discriminate.
Defined.

Lemma location_manager_is_never_cleared_witness :
  (forall e w',
     exec (handle grid_distance e) world_tracking = Some w' ->
     location_manager (s_info w') = true)
  /\ exists w',
       exec data_finalize world_tracking = Some w'
       /\ location_manager (s_info w') = true
       /\ acceleration_listener (s_info w') = false.
Proof.
  apply (location_manager_is_never_cleared grid_distance world_tracking).
  reflexivity.
Defined.

Lemma data_initialize_reports_listener_witness :
  exists w',
    data_initialize true true true true true true false world_init
    = Some (true && true && true && false, w')
    /\ acceleration_listener (s_info w') = true && true && true && false
    /\ location_manager (s_info w') = true && true
    /\ notified w' = notified world_init
    /\ database w' = database world_init.
Proof.
  apply (data_initialize_reports_listener
           true true true true true true false world_init);
    reflexivity.
Defined.

Lemma start_keeps_session_witness :
  total_distance
    (s_info (world_after_event (Start true true 10) world_tracking))
  = total_distance (s_info world_tracking)
  /\ steps_count
       (s_info (world_after_event (Start true true 10) world_tracking))
     = steps_count (s_info world_tracking)
  /\ calories
       (s_info (world_after_event (Start true true 10) world_tracking))
     = calories (s_info world_tracking)
  /\ prev_latitude
       (s_info (world_after_event (Start true true 10) world_tracking))
     = prev_latitude (s_info world_tracking)
  /\ prev_longitude
       (s_info (world_after_event (Start true true 10) world_tracking))
     = prev_longitude (s_info world_tracking)
  /\ init_acc_av
       (s_info (world_after_event (Start true true 10) world_tracking))
     = init_acc_av (s_info world_tracking)
  /\ prev_acc_av
       (s_info (world_after_event (Start true true 10) world_tracking))
     = prev_acc_av (s_info world_tracking)
  /\ database (world_after_event (Start true true 10) world_tracking)
     = database world_tracking
  /\ start_time
       (s_info (world_after_event (Start true true 10) world_tracking))
     = 10.
Proof.
  apply (start_keeps_session true true 10 world_tracking).
  vm_compute. reflexivity.
Defined.

Lemma start_needs_observers_witness :
  data_tracking_start true true 0 world_unobserved = None.
Proof.
  apply (proj1 (start_needs_observers true true 0 world_unobserved));
    reflexivity.
Defined.


Lemma observers_stay_attached_witness :
  position_changed_callback
    (s_info (world_after_event (Stop true) world_stepped))
  = position_changed_callback (s_info world_stepped)
  /\ steps_count_changed_callback
       (s_info (world_after_event (Stop true) world_stepped))
     = steps_count_changed_callback (s_info world_stepped)
  /\ fare_count_changed_callback
       (s_info (world_after_event (Stop true) world_stepped))
     = fare_count_changed_callback (s_info world_stepped)
  /\ calorie_count_changed_callback
       (s_info (world_after_event (Stop true) world_stepped))
     = calorie_count_changed_callback (s_info world_stepped).
Proof.
  apply (observers_stay_attached grid_distance (Stop true) world_stepped).
  - vm_compute. reflexivity.
  - discriminate.
Defined.

Lemma fare_is_zero_or_at_least_base_witness :
  ((1000 <? total_distance (s_info world_tracking)) = false /\ 10%Z = 0%Z)
  \/ ((1000 <? total_distance (s_info world_tracking)) = true
      /\ (10 <= 10 <= C.INT_MAX)%Z).
Proof.
  apply (fare_is_zero_or_at_least_base world_tracking
           {| s_info := s_info world_tracking;
              notified := notified world_tracking ++ [FareChanged 10];
              database := database world_tracking |} 10).
  vm_compute. reflexivity.
Defined.

Lemma shown_fares_are_plausible_witness :
  forallb notification_plausible (notified world_saved) = true
  /\ forallb (fun r => fare_plausible (qd_fare r)) (database world_saved)
     = true.
Proof.
  apply (shown_fares_are_plausible grid_distance world_saved).
  exact world_saved_reachable.
Defined.

Lemma no_two_steps_in_a_row_witness :
  steps_count (s_info (world_after_event (Acceleration 0 0 6) world_stepped))
  = steps_count (s_info world_stepped)
  /\ notified (world_after_event (Acceleration 0 0 6) world_stepped)
     = notified world_stepped.
Proof.
  apply (no_two_steps_in_a_row 0 0 9.0 0 0 6 world_walking world_stepped).
  - vm_compute. reflexivity.
  - vm_compute. reflexivity.
  - vm_compute. discriminate.
Defined.

Lemma no_step_without_rise_witness :
  exists w',
    exec (deliver_samples [(0, 0, 9.8); (0, 0, 3); (0, 0, 9.8)])
         world_calibrated = Some w'
    /\ steps_count (s_info w') = steps_count (s_info world_calibrated)
    /\ notified w' = notified world_calibrated
    /\ init_acc_av (s_info w') = init_acc_av (s_info world_calibrated).
Proof.
  apply (no_step_without_rise [(0, 0, 9.8); (0, 0, 3); (0, 0, 9.8)]
           world_calibrated).
  - vm_compute. reflexivity.
  - vm_compute. reflexivity.
  - apply Forall_cons; [vm_compute; reflexivity|].
    apply Forall_cons; [vm_compute; reflexivity|].
    apply Forall_cons; [vm_compute; reflexivity|].
    apply Forall_nil.
Defined.

Lemma first_sample_after_stop_calibrates_witness :
  init_acc_av (s_info (world_after_event (Acceleration 0 0 20) world_saved))
  = current_acc_av 0 0 20
  /\ prev_acc_av (s_info (world_after_event (Acceleration 0 0 20) world_saved))
     = current_acc_av 0 0 20
  /\ steps_count (s_info (world_after_event (Acceleration 0 0 20) world_saved))
     = steps_count (s_info world_saved)
  /\ notified (world_after_event (Acceleration 0 0 20) world_saved)
     = notified world_saved.
Proof.
  apply (first_sample_after_stop_calibrates 0 0 20 world_stepped world_saved).
  - reflexivity.
  - vm_compute. reflexivity.
  - vm_compute. reflexivity.
Defined.

Lemma steps_count_in_range_witness :
  (0 <= steps_count (s_info world_stepped) <= C.INT_MAX)%Z.
Proof.
  apply (steps_count_in_range grid_distance world_stepped).
  exact world_stepped_reachable.
Defined.

Lemma fix_leaves_pedometer_alone_witness :
  steps_count
    (s_info (world_after_event (Position 23.72 90.40 None 3) world_stepped))
  = steps_count (s_info world_stepped)
  /\ init_acc_av
       (s_info (world_after_event (Position 23.72 90.40 None 3) world_stepped))
     = init_acc_av (s_info world_stepped)
  /\ prev_acc_av
       (s_info (world_after_event (Position 23.72 90.40 None 3) world_stepped))
     = prev_acc_av (s_info world_stepped)
  /\ start_time
       (s_info (world_after_event (Position 23.72 90.40 None 3) world_stepped))
     = start_time (s_info world_stepped)
  /\ acceleration_listener
       (s_info (world_after_event (Position 23.72 90.40 None 3) world_stepped))
     = acceleration_listener (s_info world_stepped)
  /\ database (world_after_event (Position 23.72 90.40 None 3) world_stepped)
     = database world_stepped
  /\ exists ns,
       notified (world_after_event (Position 23.72 90.40 None 3) world_stepped)
       = notified world_stepped ++ ns
       /\ existsb is_steps_notification ns = false.
Proof.
  apply (fix_leaves_pedometer_alone grid_distance 23.72 90.40 None 3
           world_stepped).
  vm_compute. reflexivity.
Defined.

Lemma sample_leaves_distance_alone_witness :
  total_distance (s_info world_stepped) = total_distance (s_info world_walking)
  /\ prev_latitude (s_info world_stepped) = prev_latitude (s_info world_walking)
  /\ prev_longitude (s_info world_stepped)
     = prev_longitude (s_info world_walking)
  /\ calories (s_info world_stepped) = calories (s_info world_walking)
  /\ start_time (s_info world_stepped) = start_time (s_info world_walking)
  /\ location_manager (s_info world_stepped)
     = location_manager (s_info world_walking)
  /\ database world_stepped = database world_walking
  /\ (notified world_stepped = notified world_walking
      \/ notified world_stepped
         = notified world_walking
           ++ [StepsChanged (steps_count (s_info world_stepped))]).
Proof.
  apply (sample_leaves_distance_alone grid_distance 0 0 9.0 world_walking
           world_stepped).
  vm_compute. reflexivity.
Defined.

Lemma previous_position_changes_only_on_fix_witness :
  prev_latitude (s_info world_saved) = prev_latitude (s_info world_stepped)
  /\ prev_longitude (s_info world_saved)
     = prev_longitude (s_info world_stepped).
Proof.
  apply (previous_position_changes_only_on_fix grid_distance (Stop true)
           world_stepped world_saved).
  - vm_compute. reflexivity.
  - reflexivity.
Defined.

Lemma calories_do_not_accumulate_witness :
  exec (_pos_updated_cb (constant_distance 12.5) 23.72 90.40 None 3)
       (with_calories 5 world_tracking)
  = exec (_pos_updated_cb (constant_distance 12.5) 23.72 90.40 None 3)
         world_tracking.
Proof.
  apply (calories_do_not_accumulate (constant_distance 12.5) 5
           23.72 90.40 None 3 12.5 world_tracking).
  - vm_compute. reflexivity.
  - reflexivity.
Defined.

Lemma total_distance_is_nonneg_witness :
  (0 <=? total_distance (s_info world_paced)) = true.
Proof.
  apply (total_distance_is_nonneg (constant_distance 12.5)
           constant_distance_nonneg world_paced).
  exists (boot ++ [Start true true 0;
                   Position 23.70 90.40 None 1;
                   Position 23.70 90.40 None 2]).
  vm_compute. reflexivity.
Defined.

Lemma seeding_happens_once_witness :
  position_uninitiated (s_info world_restarted) = false.
Proof.
  apply (seeding_happens_once grid_distance 23.70 90.40 None 1
           [Position 23.71 90.40 None 2; Stop true; Start true true 10]
           world_started world_restarted).
  - reflexivity.
  - reflexivity.
  - reflexivity.
  - vm_compute. reflexivity.
Defined.

Lemma stop_needs_fare_observer_witness :
  data_tracking_stop true world_unobserved = None.
Proof.
  apply (stop_needs_fare_observer true world_unobserved); reflexivity.
Defined.

Lemma manager_is_kept_after_failed_registration_witness :
  location_manager
    (s_info (world_after_event (Start true false 5) world_degraded)) = true
  /\ forall create_ok set_cb_ok now',
       data_tracking_start create_ok set_cb_ok now'
         (world_after_event (Start true false 5) world_degraded)
       = data_tracking_start false false now'
           (world_after_event (Start true false 5) world_degraded).
Proof.
  apply (manager_is_kept_after_failed_registration 5 world_degraded).
  - reflexivity.
  - vm_compute. reflexivity.
Defined.
